(** * A/D converter driver (adc.cpp): model and verification

    The driver talks to the ATmega A/D converter through three memory mapped
    registers: the control and status register [ADCSRA], the multiplexer
    register [ADMUX] and the sixteen bit data register [ADC].  The C++ code is
    embedded as functions on an explicit machine state; the busy-wait loop of
    [read_once] is bounded by a fuel argument which counts status polls. *)

From Stdlib Require Import ZArith List Lia Bool String Permutation.
From Equations Require Import Equations.
Import ListNotations.

Local Open Scope Z_scope.

(** ** Fixed width integers *)

(** [uint8_t] and [uint16_t] are values of [Z], wrapped at every store. *)
Definition wrap8 (z : Z) : Z := z mod 2 ^ 8.
Definition wrap16 (z : Z) : Z := z mod 2 ^ 16.

(** ** Bit numbers of the A/D registers

    These come from the toolchain header [<avr/io.h>] (avr-libc), which gives
    the positions of the ATmega data sheet. *)
Module Avr.
Definition ADEN : Z := 7.
Definition ADSC : Z := 6.
Definition ADPS2 : Z := 2.
Definition ADPS1 : Z := 1.
Definition ADPS0 : Z := 0.
Definition REFS1 : Z := 7.
Definition REFS0 : Z := 6.
End Avr.
Import Avr.

(** ** Outcomes

    A call either returns, is still blocked in the busy-wait loop when the
    fuel is used up, or executes a division whose divisor is zero (undefined
    behaviour in C++). *)
Inductive outcome (A : Type) : Type :=
| Ok (a : A)
| Blocked
| DivByZero.
Arguments Ok {A} a.
Arguments Blocked {A}.
Arguments DivByZero {A}.

Definition bind {A B : Type} (m : outcome A) (k : A -> outcome B) : outcome B :=
  match m with
  | Ok a => k a
  | Blocked => Blocked
  | DivByZero => DivByZero
  end.

Notation "x <- m ;; k" := (bind m (fun x => k))
  (at level 61, m at next level, right associativity).
Notation "' p <- m ;; k" := (bind m (fun x => match x with p => k end))
  (at level 61, p pattern, m at next level, right associativity).

(** The guarded division of [uint16_t] by [uint8_t]. *)
Definition udiv (a b : Z) : outcome Z :=
  if b =? 0 then DivByZero else Ok (a / b).

(** ** The peripheral *)

(** The conversion unit: idle, converting (with the number of status polls
    that will still see the start bit set, and the value that will be
    delivered), or not responding. *)
Inductive converter : Type :=
| Idle
| Busy (polls : nat) (value : Z)
| Stuck.

(** The environment of the driver: the value which the [n]-th conversion
    delivers when it is started with a given multiplexer setting, and how
    many polls it takes ([None]: the peripheral never answers). *)
Record world : Type := mkWorld {
  sample : nat -> Z -> Z;
  latency : nat -> option nat
}.

(** The machine state: the three registers, the conversion unit, the number
    of conversions started so far, and a log of the completed [read_once]
    calls (channel argument, returned value). *)
Record machine : Type := mkMachine {
  ADCSRA : Z;
  ADMUX : Z;
  ADC : Z;
  conv : converter;
  started : nat;
  calls : list (Z * Z)
}.

(** ** The serial port *)

(** What an [emstream] has been sent, item by item. *)
Inductive item : Type :=
| Text (s : string)
| Num (n : Z)
| Endl.

Definition emstream : Type := list item.

(** The diagnostic dump is one [<<] expression with ten lines.  Each line
    has a label and one operand which reads the hardware: a register or a
    call of [read_once]. *)
Inductive operand : Type :=
| Control
| Multiplexer
| Channel (ch : Z).

Definition dump_lines : list (string * operand) :=
  [("ADCSRA: ", Control); ("ADMUX: ", Multiplexer);
   ("ADC0 = ", Channel 0); ("ADC1 = ", Channel 1);
   ("ADC2 = ", Channel 2); ("ADC3 = ", Channel 3);
   ("ADC4 = ", Channel 4); ("ADC5 = ", Channel 5);
   ("ADC6 = ", Channel 6); ("ADC7 = ", Channel 7)]%string.

Definition operand_at (i : nat) : operand :=
  nth i (map snd dump_lines) Control.

(** The values of the operands, by line number. *)
Definition store (i : nat) (v : Z) (vals : nat -> Z) : nat -> Z :=
  fun j => if Nat.eqb j i then v else vals j.

(** What the chain sends once its operands have their values: the lines in
    the order in which they are written. *)
Definition print_lines (vals : nat -> Z) : emstream :=
  flat_map (fun '(i, (label, _)) => [Text label; Num (vals i); Endl])
           (combine (seq 0 10) dump_lines).

(** The order of C++17, left to right, and its reverse. *)
Definition left_to_right : list nat := seq 0 10.

Definition right_to_left : list nat := rev (seq 0 10).

(** ** Test benches *)

(** A peripheral after reset. *)
Definition reset_machine : machine :=
  mkMachine 0 0 0 Idle 0 [].

(** A mocked peripheral which delivers a fixed sequence of readings, each
    after [k] polls. *)
Definition mock (k : nat) (readings : list Z) : world :=
  mkWorld (fun n _ => nth n readings 0) (fun _ => Some k).

(** A simulated peripheral on which channel [k] reads [k]. *)
Definition channel_echo : world :=
  mkWorld (fun _ mux => Z.land mux 7) (fun _ => Some 3%nat).

(** A peripheral that never finishes a conversion. *)
Definition dead : world :=
  mkWorld (fun _ _ => 0) (fun _ => None).

(** ** The driver *)

Section Driver.

Variable w : world.

(** Stores to the registers.  A store to [ADCSRA] with the start bit set
    starts conversion number [started] when the unit is idle. *)
Definition write_ADMUX (v : Z) (st : machine) : machine :=
  mkMachine (ADCSRA st) (wrap8 v) (ADC st) (conv st) (started st) (calls st).

Definition begin_conversion (st : machine) : converter :=
  match latency w (started st) with
  | Some k => Busy k (sample w (started st) (ADMUX st))
  | None => Stuck
  end.

Definition write_ADCSRA (v : Z) (st : machine) : machine :=
  if Z.testbit v ADSC then
    match conv st with
    | Idle =>
        mkMachine (wrap8 v) (ADMUX st) (ADC st) (begin_conversion st)
                  (S (started st)) (calls st)
    | _ =>
        mkMachine (wrap8 v) (ADMUX st) (ADC st) (conv st) (started st) (calls st)
    end
  else
    mkMachine (wrap8 v) (ADMUX st) (ADC st) (conv st) (started st) (calls st).

(** What the hardware does between two polls of the status register: a
    finished conversion clears the start bit and loads the data register. *)
Definition tick (st : machine) : machine :=
  match conv st with
  | Busy O v =>
      mkMachine (Z.land (ADCSRA st) (Z.lnot (Z.shiftl 1 ADSC))) (ADMUX st)
                (wrap16 v) Idle (started st) (calls st)
  | Busy (S k) v =>
      mkMachine (ADCSRA st) (ADMUX st) (ADC st) (Busy k v) (started st) (calls st)
  | Idle => st
  | Stuck => st
  end.

Definition log_call (ch result : Z) (st : machine) : machine :=
  mkMachine (ADCSRA st) (ADMUX st) (ADC st) (conv st) (started st)
            (calls st ++ [(ch, result)]).

(** [adc::adc]: the constructor.  Modelled from the spec: the [DBG] macro of
    the serial library is not part of the sources; it sends one diagnostic
    line to the serial port. *)
Definition adc_init (p_serial_port : emstream) (st : machine)
  : emstream * machine :=
  let ptr_to_serial := p_serial_port in
  let st := write_ADCSRA (Z.lor (ADCSRA st) (Z.shiftl 1 ADEN)) st in
  let st := write_ADCSRA (Z.lor (ADCSRA st) (Z.shiftl 1 ADPS0)) st in
  let st := write_ADCSRA (Z.land (ADCSRA st) (Z.lnot (Z.shiftl 1 ADPS1))) st in
  let st := write_ADCSRA (Z.lor (ADCSRA st) (Z.shiftl 1 ADPS2)) st in
  let st := write_ADMUX (Z.lor (ADMUX st) (Z.shiftl 1 REFS0)) st in
  let st := write_ADMUX (Z.land (ADMUX st) (Z.lnot (Z.shiftl 1 REFS1))) st in
  (ptr_to_serial ++ [Text "A/D constructor OK"; Endl], st).

(** Lines 79 to 83 of [read_once]: the channel is masked and written into the
    multiplexer. *)
Definition select_channel (ch : Z) (st : machine) : machine :=
  let ch := Z.land ch 7 in
  let st := write_ADMUX (Z.land (ADMUX st) 248) st in
  write_ADMUX (Z.lor (ADMUX st) ch) st.

(** [while (ADCSRA & 0b01000000);] *)
Fixpoint busy_wait (fuel : nat) (st : machine) : outcome machine :=
  match fuel with
  | O => Blocked
  | S fuel' =>
      let st := tick st in
      if Z.land (ADCSRA st) 64 =? 0 then Ok st else busy_wait fuel' st
  end.

(** [adc::read_once] *)
Definition read_once (fuel : nat) (ch : Z) (st : machine)
  : outcome (Z * machine) :=
  let st := select_channel ch st in
  let st := write_ADCSRA (Z.lor (ADCSRA st) (Z.shiftl 1 ADSC)) st in
  st <- busy_wait fuel st ;;
  let result := ADC st in
  Ok (result, log_call ch result st).

(** The [for] loop of [read_oversampled]: [i] stays [0], [samples] is
    counted down and the readings are added up in sixteen bits. *)
Equations? accumulate (fuel : nat) (channel samples result : Z) (st : machine)
  : outcome (Z * machine) by wf (Z.to_nat samples) lt :=
  accumulate fuel channel samples result st with Z_lt_dec 0 samples := {
    | left _ with read_once fuel channel st := {
        | Ok (v, st') =>
            accumulate fuel channel (wrap8 (samples - 1)) (wrap16 (result + v)) st'
        | Blocked => Blocked
        | DivByZero => DivByZero }
    | right _ => Ok (result, st) }.
Proof.
  unfold wrap8.
  assert (0 <= (samples - 1) mod 2 ^ 8 <= samples - 1)
    by (split; [apply Z.mod_pos_bound | apply Z.mod_le]; lia).
  lia.
Qed.

(** [adc::read_oversampled] *)
Definition read_oversampled (fuel : nat) (channel samples : Z) (st : machine)
  : outcome (Z * machine) :=
  let result := 0 in
  let samples := if 64 <=? samples then 60 else samples in
  let temp_samples := samples in
  '(result, st) <- accumulate fuel channel samples result st ;;
  r <- udiv result temp_samples ;;
  Ok (r, st).

(** One operand of the dump: a register is read as it is, a channel is
    read with [read_once]. *)
Definition eval_operand (fuel : nat) (op : operand) (st : machine)
  : outcome (Z * machine) :=
  match op with
  | Control => Ok (ADCSRA st, st)
  | Multiplexer => Ok (ADMUX st, st)
  | Channel ch => read_once fuel ch st
  end.

Fixpoint eval_operands (fuel : nat) (order : list nat) (vals : nat -> Z)
         (st : machine) : outcome ((nat -> Z) * machine) :=
  match order with
  | [] => Ok (vals, st)
  | i :: order' =>
      '(v, st) <- eval_operand fuel (operand_at i) st ;;
      eval_operands fuel order' (store i v vals) st
  end.

(** [operator<<]: the diagnostic dump.  The ten lines are written in the
    order of the source, but the source is a single expression, and before
    C++17 the language leaves open in which order its operands are
    evaluated.  [order] lists the line numbers in the order in which their
    operands are evaluated; the theorems hold for every permutation of the
    ten lines.  Writing to the serial port and reading the converter do not
    affect each other, so the operands are evaluated first and the lines are
    written after them. *)
Definition print_adc (order : list nat) (fuel : nat) (serpt : emstream)
           (st : machine) : outcome (emstream * machine) :=
  '(vals, st) <- eval_operands fuel order (fun _ => 0) st ;;
  Ok (serpt ++ print_lines vals, st).

(** ** Vocabulary of the specification *)

(** The state in which [read_once] enters its busy-wait loop, and the
    conversion it then waits for. *)
Definition armed (ch : Z) (st : machine) : machine :=
  let st := select_channel ch st in
  write_ADCSRA (Z.lor (ADCSRA st) (Z.shiftl 1 ADSC)) st.

Definition pending (ch : Z) (st : machine) : converter :=
  conv (armed ch st).

(** The state at the poll which sees the conversion finished. *)
Definition completed (v : Z) (st : machine) : machine :=
  mkMachine (Z.land (ADCSRA st) (Z.lnot (Z.shiftl 1 ADSC))) (ADMUX st)
            (wrap16 v) Idle (started st) (calls st).

(** The values which [n] successive reads of channel [ch] return when they
    start from an idle converter. *)
Definition reading (ch : Z) (st : machine) (i : nat) : Z :=
  wrap16 (sample w (started st + i) (ADMUX (select_channel ch st))).

Definition readings (ch : Z) (n : nat) (st : machine) : list Z :=
  map (reading ch st) (seq 0 n).

(** The sixteen bit accumulator and the exact sum. *)
Definition add16 (acc v : Z) : Z := wrap16 (acc + v).

Definition sum16 (vs : list Z) : Z := fold_left add16 vs 0.

Definition total (vs : list Z) : Z := fold_right Z.add 0 vs.

(** The hardware answers every conversion in fewer than [fuel] polls. *)
Definition responsive (fuel : nat) : Prop :=
  forall n, exists k, latency w n = Some k /\ (k < fuel)%nat.

(** Every conversion delivers a ten bit value. *)
Definition ten_bit : Prop :=
  forall n mux, 0 <= sample w n mux <= 1023.

(** The sample count after the clamp of [read_oversampled]. *)
Definition effective_samples (samples : Z) : Z :=
  if 64 <=? samples then 60 else samples.

(** The configuration which the constructor sets up: converter enabled,
    prescaler field 1,0,1 and reference field 1,0. *)
Definition configured (st : machine) : Prop :=
  Z.land (ADCSRA st) 135 = 133 /\ Z.land (ADMUX st) 192 = 64.

(** The bits which a read does not own: all of [ADCSRA] but the start bit,
    and the five high bits of [ADMUX]. *)
Definition same_setup (st st' : machine) : Prop :=
  Z.land (ADCSRA st') 191 = Z.land (ADCSRA st) 191
  /\ Z.land (ADMUX st') 248 = Z.land (ADMUX st) 248.

(** The control register after a read: the start bit has been set and
    cleared again. *)
Definition control_after_read (a : Z) : Z :=
  Z.land (wrap8 (Z.lor a (Z.shiftl 1 ADSC))) (Z.lnot (Z.shiftl 1 ADSC)).

(** The value which a register operand of the dump can have, whenever it is
    evaluated: the register as the dump found it, or as a read left it; and
    the range of the value of a channel operand. *)
Definition operand_value (st : machine) (op : operand) (v : Z) : Prop :=
  match op with
  | Control => v = ADCSRA st \/ v = control_after_read (ADCSRA st)
  | Multiplexer =>
      v = ADMUX st
      \/ exists k, 0 <= k < 8 /\ v = Z.lor (Z.land (ADMUX st) 248) k
  | Channel _ => 0 <= v < 65536
  end.

Definition reached (st s : machine) : Prop :=
  operand_value st Control (ADCSRA s)
  /\ operand_value st Multiplexer (ADMUX s).

(** The reads which evaluating one operand, and the operands in [order],
    logs, given the values of the operands. *)
Definition step_log (op : operand) (v : Z) : list (Z * Z) :=
  match op with
  | Channel ch => [(ch, v)]
  | _ => []
  end.

Definition read_log (vals : nat -> Z) (order : list nat) : list (Z * Z) :=
  flat_map (fun i => step_log (operand_at i) (vals i)) order.

(** The simulated peripheral on which every channel reads its own number. *)
Definition echo : Prop :=
  forall n mux, sample w n mux = Z.land mux 7.

(** The input signal does not change from one conversion to the next. *)
Definition stable : Prop :=
  forall n m mux, sample w n mux = sample w m mux.

(** Every conversion delivers a value between [lo] and [hi]. *)
Definition within (lo hi : Z) : Prop :=
  forall n mux, lo <= sample w n mux <= hi.

(** ** Bits and masks *)

Lemma testbit_64 (i : Z) : Z.testbit 64 i = (i =? 6).
Proof.
  change 64 with (2 ^ 6). rewrite Z.pow2_bits_eqb by lia.
  apply Z.eqb_sym.
Qed.

Lemma land_64_eqb (x : Z) : (Z.land x 64 =? 0) = negb (Z.testbit x 6).
Proof.
  destruct (Z.testbit x 6) eqn:E; simpl.
  - apply Z.eqb_neq. intro H.
    assert (F : Z.testbit (Z.land x 64) 6 = false) by (rewrite H; reflexivity).
    rewrite Z.land_spec, E in F. discriminate.
  - apply Z.eqb_eq. apply Z.bits_inj'. intros i Hi.
    rewrite Z.land_spec, testbit_64, Z.bits_0.
    destruct (Z.eqb_spec i 6); subst; rewrite ?E, ?andb_false_r; reflexivity.
Qed.

Lemma wrap8_bits (x i : Z) : Z.testbit (wrap8 x) i = (i <? 8) && Z.testbit x i.
Proof. unfold wrap8. apply Z.testbit_mod_pow2. lia. Qed.

Lemma byte_cases (i : Z) :
  0 <= i ->
  i = 0 \/ i = 1 \/ i = 2 \/ i = 3 \/ i = 4 \/ i = 5 \/ i = 6 \/ i = 7 \/ 8 <= i.
Proof. lia. Qed.

Lemma high_bit_lt (i : Z) : 8 <= i -> (i <? 8) = false.
Proof. intro. apply Z.ltb_ge. lia. Qed.

Lemma byte_high (c i : Z) : 0 <= c < 256 -> 8 <= i -> Z.testbit c i = false.
Proof.
  intros Hc Hi. rewrite <- (Z.mod_small c (2 ^ 8)) by (simpl; lia).
  apply Z.mod_pow2_bits_high. lia.
Qed.

(** Equalities between register values are proved bit by bit: the bit
    number is one of 0 to 7, where the masks are evaluated, or is above the
    register. *)
Ltac fold_masks :=
  repeat match goal with
    | |- context [Z.shiftl 1 ?k] =>
        let v := eval vm_compute in (Z.shiftl 1 k) in
        change (Z.shiftl 1 k) with v
    end.

Ltac push_bits :=
  repeat (rewrite Z.land_spec || rewrite Z.lor_spec || rewrite wrap8_bits
          || rewrite Z.lnot_spec by lia || rewrite Z.bits_0).

Ltac eval_bits :=
  repeat match goal with
    | |- context [Z.testbit (Z.pos ?p) ?k] =>
        let b := eval vm_compute in (Z.testbit (Z.pos p) k) in
        change (Z.testbit (Z.pos p) k) with b
    | |- context [?k <? 8] =>
        let b := eval vm_compute in (k <? 8) in
        change (k <? 8) with b
    end.

Ltac clear_bools :=
  repeat (rewrite andb_true_r || rewrite andb_false_r || rewrite orb_false_r
          || rewrite orb_true_r || rewrite andb_true_l || rewrite andb_false_l
          || rewrite orb_false_l || rewrite orb_true_l);
  try reflexivity.

Ltac high_bits i Hhi :=
  try rewrite (high_bit_lt i Hhi);
  repeat match goal with
    | |- context [Z.testbit (Z.pos ?p) i] =>
        rewrite (byte_high (Z.pos p) i) by (try split; lia)
    end.

Ltac bits_at i Hi :=
  fold_masks; push_bits;
  destruct (byte_cases i Hi) as
    [-> | [-> | [-> | [-> | [-> | [-> | [-> | [-> | Hhi]]]]]]]];
  [ eval_bits; clear_bools .. | high_bits i Hhi; clear_bools ].

Ltac bitwise :=
  apply Z.bits_inj'; let i := fresh "i" in let Hi := fresh "Hi" in
  intros i Hi; bits_at i Hi.

Lemma select_channel_ADMUX (ch : Z) (st : machine) :
  ADMUX (select_channel ch st) = Z.lor (Z.land (ADMUX st) 248) (ch mod 8).
Proof.
  unfold select_channel, write_ADMUX; simpl.
  change 8 with (2 ^ 3) at 1. rewrite <- Z.land_ones by lia.
  change (Z.ones 3) with 7.
  bitwise.
Qed.

Lemma select_channel_frame (ch : Z) (st : machine) :
  ADCSRA (select_channel ch st) = ADCSRA st
  /\ ADC (select_channel ch st) = ADC st
  /\ conv (select_channel ch st) = conv st
  /\ started (select_channel ch st) = started st
  /\ calls (select_channel ch st) = calls st.
Proof. repeat split. Qed.

Lemma select_channel_again (ch : Z) (st st' : machine) :
  Z.land (ADMUX st') 248 = Z.land (ADMUX st) 248 ->
  ADMUX (select_channel ch st') = ADMUX (select_channel ch st).
Proof.
  intro H. rewrite !select_channel_ADMUX, H. reflexivity.
Qed.

Lemma select_channel_high (ch : Z) (st : machine) :
  Z.land (ADMUX (select_channel ch st)) 248 = Z.land (ADMUX st) 248.
Proof.
  rewrite select_channel_ADMUX.
  change 8 with (2 ^ 3) at 1. rewrite <- Z.land_ones by lia.
  change (Z.ones 3) with 7.
  bitwise.
Qed.

Lemma select_channel_low (ch : Z) (st : machine) :
  Z.land (ADMUX (select_channel ch st)) 7 = ch mod 8.
Proof.
  rewrite select_channel_ADMUX.
  change 8 with (2 ^ 3). rewrite <- Z.land_ones by lia.
  change (Z.ones 3) with 7.
  bitwise.
Qed.

(** ** The busy-wait loop *)

Lemma start_bit_written (a : Z) :
  Z.testbit (Z.lor a (Z.shiftl 1 ADSC)) ADSC = true.
Proof.
  rewrite Z.lor_spec. change (Z.testbit (Z.shiftl 1 ADSC) ADSC) with true.
  apply orb_true_r.
Qed.

Lemma armed_idle (ch : Z) (st : machine) :
  conv st = Idle ->
  armed ch st =
  mkMachine (wrap8 (Z.lor (ADCSRA st) (Z.shiftl 1 ADSC)))
            (ADMUX (select_channel ch st)) (ADC st)
            (begin_conversion (select_channel ch st))
            (S (started st)) (calls st).
Proof.
  intro H. unfold armed, write_ADCSRA.
  rewrite start_bit_written.
  destruct (select_channel_frame ch st) as (-> & -> & -> & -> & ->).
  rewrite H. reflexivity.
Qed.

Lemma armed_frame (ch : Z) (st : machine) :
  ADMUX (armed ch st) = ADMUX (select_channel ch st)
  /\ calls (armed ch st) = calls st
  /\ Z.testbit (ADCSRA (armed ch st)) 6 = true.
Proof.
  unfold armed, write_ADCSRA. rewrite start_bit_written.
  assert (B : forall a, Z.testbit (wrap8 (Z.lor a (Z.shiftl 1 ADSC))) 6 = true).
  { intro a. rewrite wrap8_bits. exact (start_bit_written a). }
  destruct (conv (select_channel ch st)); repeat split; apply B.
Qed.

Lemma pending_idle (ch : Z) (st : machine) :
  conv st = Idle -> pending ch st = begin_conversion (select_channel ch st).
Proof.
  intro H. unfold pending. rewrite (armed_idle ch st H). reflexivity.
Qed.

Lemma pending_not_idle (ch : Z) (st : machine) :
  pending ch st <> Idle.
Proof.
  unfold pending, armed, write_ADCSRA. rewrite start_bit_written.
  destruct (conv (select_channel ch st)) eqn:E; simpl; try congruence.
  unfold begin_conversion. destruct (latency w _); congruence.
Qed.

Lemma completed_clear (v : Z) (st : machine) :
  (Z.land (ADCSRA (completed v st)) 64 =? 0) = true.
Proof.
  rewrite land_64_eqb. simpl ADCSRA.
  rewrite Z.land_spec, Z.lnot_spec by lia.
  change (Z.testbit (Z.shiftl 1 ADSC) 6) with true.
  rewrite andb_false_r. reflexivity.
Qed.

Lemma busy_wait_returns (k : nat) :
  forall (fuel : nat) (st : machine) (v : Z),
    conv st = Busy k v ->
    Z.testbit (ADCSRA st) 6 = true ->
    (k < fuel)%nat ->
    busy_wait fuel st = Ok (completed v st).
Proof.
  induction k as [|k IH]; intros fuel st v Hc Hb Hf;
    (destruct fuel as [|fuel]; [lia|]); simpl; unfold tick; rewrite Hc.
  - fold (completed v st). rewrite completed_clear. reflexivity.
  - rewrite land_64_eqb. simpl ADCSRA. rewrite Hb. simpl negb. cbv iota.
    rewrite (IH fuel _ v); [reflexivity | reflexivity | exact Hb | lia].
Qed.

Lemma busy_wait_short (k : nat) :
  forall (fuel : nat) (st : machine) (v : Z),
    conv st = Busy k v ->
    Z.testbit (ADCSRA st) 6 = true ->
    (fuel <= k)%nat ->
    busy_wait fuel st = Blocked.
Proof.
  induction k as [|k IH]; intros fuel st v Hc Hb Hf;
    (destruct fuel as [|fuel]; [reflexivity|]); [lia|].
  simpl; unfold tick; rewrite Hc.
  rewrite land_64_eqb. simpl ADCSRA. rewrite Hb. simpl negb. cbv iota.
  apply (IH fuel _ v); [reflexivity | exact Hb | lia].
Qed.

Lemma busy_wait_stuck (fuel : nat) (st : machine) :
  conv st = Stuck ->
  Z.testbit (ADCSRA st) 6 = true ->
  busy_wait fuel st = Blocked.
Proof.
  intros Hc Hb. induction fuel as [|fuel IH]; [reflexivity|].
  simpl; unfold tick; rewrite Hc.
  rewrite land_64_eqb, Hb. exact IH.
Qed.

Lemma tick_frame (st : machine) :
  ADMUX (tick st) = ADMUX st /\ calls (tick st) = calls st
  /\ started (tick st) = started st.
Proof.
  unfold tick. destruct (conv st) as [|[|k] v|]; repeat split.
Qed.

Lemma busy_wait_frame (fuel : nat) :
  forall st st', busy_wait fuel st = Ok st' ->
    ADMUX st' = ADMUX st /\ calls st' = calls st /\ started st' = started st.
Proof.
  induction fuel as [|fuel IH]; intros st st' H; [discriminate|].
  simpl in H. destruct (tick_frame st) as (Hm & Hc & Hs).
  destruct (Z.land (ADCSRA (tick st)) 64 =? 0).
  - injection H as <-. auto.
  - apply IH in H. destruct H as (-> & -> & ->). auto.
Qed.

(** ** [read_once] *)

Lemma read_once_unfold (fuel : nat) (ch : Z) (st : machine) :
  read_once fuel ch st =
  (st' <- busy_wait fuel (armed ch st) ;;
   Ok (ADC st', log_call ch (ADC st') st')).
Proof. reflexivity. Qed.

Lemma read_once_returns (fuel k : nat) (ch v : Z) (st : machine) :
  pending ch st = Busy k v ->
  (k < fuel)%nat ->
  read_once fuel ch st =
  Ok (wrap16 v, log_call ch (wrap16 v) (completed v (armed ch st))).
Proof.
  intros Hp Hf. rewrite read_once_unfold.
  rewrite (busy_wait_returns k fuel (armed ch st) v Hp);
    [reflexivity | apply armed_frame | exact Hf].
Qed.

Lemma read_once_short (fuel k : nat) (ch v : Z) (st : machine) :
  pending ch st = Busy k v ->
  (fuel <= k)%nat ->
  read_once fuel ch st = Blocked.
Proof.
  intros Hp Hf. rewrite read_once_unfold.
  rewrite (busy_wait_short k fuel (armed ch st) v Hp);
    [reflexivity | apply armed_frame | exact Hf].
Qed.

Lemma read_once_stuck (fuel : nat) (ch : Z) (st : machine) :
  pending ch st = Stuck ->
  read_once fuel ch st = Blocked.
Proof.
  intro Hp. rewrite read_once_unfold.
  rewrite (busy_wait_stuck fuel (armed ch st) Hp);
    [reflexivity | apply armed_frame].
Qed.

Lemma read_once_frame (fuel : nat) (ch v : Z) (st st' : machine) :
  read_once fuel ch st = Ok (v, st') ->
  ADMUX st' = ADMUX (select_channel ch st)
  /\ calls st' = calls st ++ [(ch, v)].
Proof.
  rewrite read_once_unfold. intro H.
  destruct (busy_wait fuel (armed ch st)) as [st1| |] eqn:E; try discriminate.
  simpl in H. injection H as <- <-.
  apply busy_wait_frame in E. destruct E as (Hm & Hc & _).
  destruct (armed_frame ch st) as (Am & Ac & _).
  simpl. rewrite Hm, Hc, Am, Ac. auto.
Qed.

(** One read from an idle converter on responsive hardware. *)
Lemma read_once_idle (fuel : nat) (ch : Z) (st : machine) :
  responsive fuel ->
  conv st = Idle ->
  exists st',
    read_once fuel ch st = Ok (reading ch st 0, st')
    /\ conv st' = Idle
    /\ started st' = S (started st)
    /\ calls st' = calls st ++ [(ch, reading ch st 0)]
    /\ ADMUX st' = ADMUX (select_channel ch st).
Proof.
  intros Hr Hi. destruct (Hr (started st)) as (k & Hk & Hlt).
  assert (Hp : pending ch st
               = Busy k (sample w (started st) (ADMUX (select_channel ch st)))).
  { rewrite (pending_idle ch st Hi). unfold begin_conversion.
    destruct (select_channel_frame ch st) as (_ & _ & _ & -> & _).
    rewrite Hk. reflexivity. }
  eexists. split.
  - rewrite (read_once_returns fuel k ch _ st Hp Hlt).
    unfold reading. rewrite Nat.add_0_r. reflexivity.
  - rewrite (armed_idle ch st Hi). simpl.
    unfold reading. rewrite Nat.add_0_r. auto.
Qed.

(** ** The accumulation loop *)

Lemma accumulate_done (fuel : nat) (channel samples result : Z) (st : machine) :
  samples <= 0 ->
  accumulate fuel channel samples result st = Ok (result, st).
Proof.
  intro H. rewrite accumulate_equation_1.
  destruct (Z_lt_dec 0 samples) as [l|n]; [lia|].
  apply accumulate_clause_1_equation_2.
Qed.

Lemma accumulate_step (fuel : nat) (channel samples result : Z) (st : machine) :
  0 < samples ->
  accumulate fuel channel samples result st =
  ('(v, st') <- read_once fuel channel st ;;
   accumulate fuel channel (wrap8 (samples - 1)) (wrap16 (result + v)) st').
Proof.
  intro H. rewrite accumulate_equation_1.
  destruct (Z_lt_dec 0 samples) as [l|n]; [|lia].
  rewrite accumulate_clause_1_equation_1.
  destruct (read_once fuel channel st) as [[v st']| |].
  - rewrite accumulate_clause_1_clause_1_equation_1. reflexivity.
  - rewrite accumulate_clause_1_clause_1_equation_2. reflexivity.
  - rewrite accumulate_clause_1_clause_1_equation_3. reflexivity.
Qed.

Lemma readings_length (ch : Z) (n : nat) (st : machine) :
  List.length (readings ch n st) = n.
Proof. unfold readings. rewrite length_map, length_seq. reflexivity. Qed.

Lemma readings_succ (ch : Z) (n : nat) (st st' : machine) :
  started st' = S (started st) ->
  ADMUX st' = ADMUX (select_channel ch st) ->
  readings ch (S n) st = reading ch st 0 :: readings ch n st'.
Proof.
  intros Hs Hm. unfold readings. simpl. f_equal.
  rewrite <- seq_shift, map_map. apply map_ext. intro i.
  unfold reading. rewrite Hs.
  rewrite (select_channel_again ch st st').
  - f_equal. f_equal. lia.
  - rewrite Hm. apply select_channel_high.
Qed.

Lemma accumulate_idle (fuel : nat) (channel : Z) :
  responsive fuel ->
  forall (n : nat) (samples result : Z) (st : machine),
    Z.to_nat samples = n ->
    0 <= samples < 256 ->
    conv st = Idle ->
    exists st',
      accumulate fuel channel samples result st
      = Ok (fold_left add16 (readings channel n st) result, st')
      /\ conv st' = Idle
      /\ started st' = (started st + n)%nat
      /\ calls st' = calls st ++ map (pair channel) (readings channel n st).
Proof.
  intros Hr n. induction n as [|n IH]; intros samples result st Hn Hs Hi.
  - exists st. rewrite accumulate_done by lia. simpl.
    rewrite app_nil_r, Nat.add_0_r. auto.
  - destruct (read_once_idle fuel channel st Hr Hi)
      as (st1 & Hread & Hi1 & Hs1 & Hc1 & Hm1).
    destruct (IH (wrap8 (samples - 1)) (wrap16 (result + reading channel st 0)) st1)
      as (st2 & Hacc & Hi2 & Hs2 & Hc2).
    + unfold wrap8. rewrite Z.mod_small by lia. lia.
    + unfold wrap8. rewrite Z.mod_small by lia. lia.
    + exact Hi1.
    + exists st2. rewrite accumulate_step by lia.
      rewrite Hread. simpl bind.
      rewrite (readings_succ channel n st st1 Hs1 Hm1).
      rewrite Hacc, Hi2, Hs2, Hc2, Hs1, Hc1. simpl.
      rewrite <- app_assoc. simpl.
      repeat split; lia.
Qed.

(** ** Sums of readings *)

Lemma fold_add16_exact (vs : list Z) :
  forall acc,
    0 <= acc ->
    Forall (fun v => 0 <= v) vs ->
    acc + total vs <= 65535 ->
    fold_left add16 vs acc = acc + total vs.
Proof.
  induction vs as [|v vs IH]; intros acc Ha Hv Hs; simpl in *.
  - lia.
  - inversion Hv as [|? ? Hv0 Hvs]; subst.
    assert (0 <= total vs).
    { clear - Hvs. induction Hvs; simpl; lia. }
    unfold add16 at 2, wrap16. rewrite Z.mod_small by lia.
    rewrite IH; auto; lia.
Qed.

Lemma total_bounds (b : Z) (vs : list Z) :
  Forall (fun v => 0 <= v <= b) vs ->
  0 <= total vs <= b * Z.of_nat (List.length vs).
Proof.
  induction 1 as [|v vs Hv Hvs IH]; simpl List.length; simpl total; [lia|].
  rewrite Nat2Z.inj_succ. nia.
Qed.

Lemma Forall_prefix {A : Type} (P : A -> Prop) (l : list A) :
  Forall P l -> forall k, Forall P (firstn k l).
Proof.
  induction 1 as [|x l Hx Hl IH]; intro k.
  - rewrite firstn_nil. constructor.
  - destruct k as [|k]; simpl; [constructor|].
    constructor; [exact Hx | apply IH].
Qed.

Lemma total_firstn_le (vs : list Z) :
  Forall (fun v => 0 <= v) vs ->
  forall k, 0 <= total (firstn k vs) <= total vs.
Proof.
  induction 1 as [|v vs Hv Hvs IH]; intro k.
  - rewrite firstn_nil. simpl. lia.
  - destruct k as [|k]; simpl.
    + assert (0 <= total vs) by (specialize (IH 0%nat); simpl in IH; lia).
      lia.
    + specialize (IH k). lia.
Qed.

Lemma readings_ten_bit (ch : Z) (n : nat) (st : machine) :
  ten_bit ->
  Forall (fun v => 0 <= v <= 1023) (readings ch n st).
Proof.
  intro H. unfold readings. apply Forall_map. apply Forall_forall.
  intros i _. unfold reading, wrap16.
  specialize (H (started st + i)%nat (ADMUX (select_channel ch st))).
  change (2 ^ 16) with 65536. rewrite Z.mod_small by lia. lia.
Qed.

(** ** [read_oversampled] on responsive hardware *)

Lemma effective_samples_range (samples : Z) :
  1 <= samples -> 1 <= effective_samples samples <= 63.
Proof.
  intro H. unfold effective_samples.
  destruct (Z.leb_spec 64 samples); lia.
Qed.

Lemma read_oversampled_idle (fuel : nat) (channel samples : Z) (st : machine) :
  responsive fuel ->
  conv st = Idle ->
  1 <= samples ->
  exists st',
    read_oversampled fuel channel samples st
    = Ok (sum16 (readings channel (Z.to_nat (effective_samples samples)) st)
          / effective_samples samples, st')
    /\ conv st' = Idle
    /\ started st' = (started st + Z.to_nat (effective_samples samples))%nat
    /\ calls st' = calls st ++
         map (pair channel)
             (readings channel (Z.to_nat (effective_samples samples)) st).
Proof.
  intros Hr Hi Hs.
  pose proof (effective_samples_range samples Hs) as Hn.
  destruct (accumulate_idle fuel channel Hr
              (Z.to_nat (effective_samples samples))
              (effective_samples samples) 0 st eq_refl) as (st' & Ha & Hrest);
    [lia | exact Hi |].
  exists st'. split; [|exact Hrest].
  unfold read_oversampled. fold (effective_samples samples).
  rewrite Ha. cbn [bind]. unfold udiv.
  destruct (Z.eqb_spec (effective_samples samples) 0); [lia|].
  reflexivity.
Qed.

Lemma write_ADCSRA_regs (v : Z) (st : machine) :
  ADCSRA (write_ADCSRA v st) = wrap8 v
  /\ ADMUX (write_ADCSRA v st) = ADMUX st.
Proof.
  unfold write_ADCSRA.
  destruct (Z.testbit v ADSC); [destruct (conv st)|]; split; reflexivity.
Qed.

Lemma adc_init_ADCSRA (p : emstream) (st : machine) :
  ADCSRA (snd (adc_init p st)) =
  wrap8 (Z.lor (wrap8 (Z.land (wrap8 (Z.lor (wrap8 (Z.lor (ADCSRA st)
    (Z.shiftl 1 ADEN))) (Z.shiftl 1 ADPS0))) (Z.lnot (Z.shiftl 1 ADPS1))))
    (Z.shiftl 1 ADPS2)).
Proof.
  unfold adc_init. cbn [snd]. unfold write_ADMUX. cbn [ADCSRA].
  repeat (rewrite (proj1 (write_ADCSRA_regs _ _))). reflexivity.
Qed.

Lemma adc_init_ADMUX (p : emstream) (st : machine) :
  ADMUX (snd (adc_init p st)) =
  wrap8 (Z.land (wrap8 (Z.lor (ADMUX st) (Z.shiftl 1 REFS0)))
                (Z.lnot (Z.shiftl 1 REFS1))).
Proof.
  unfold adc_init. cbn [snd]. unfold write_ADMUX. cbn [ADMUX].
  repeat (rewrite (proj2 (write_ADCSRA_regs _ _))). reflexivity.
Qed.

(** ** The claims *)

(** C6: the constructor sets the enable bit of the control register, sets
    the prescaler field to bit0=1, bit1=0, bit2=1, sets the reference field of
    the multiplexer register to bit0=1, bit1=0, and leaves every other bit of
    both registers as it was before the construction. *)
Theorem adc_init_registers (p : emstream) (st : machine) :
  let st' := snd (adc_init p st) in
  Z.testbit (ADCSRA st') ADEN = true
  /\ Z.testbit (ADCSRA st') ADPS0 = true
  /\ Z.testbit (ADCSRA st') ADPS1 = false
  /\ Z.testbit (ADCSRA st') ADPS2 = true
  /\ Z.testbit (ADMUX st') REFS0 = true
  /\ Z.testbit (ADMUX st') REFS1 = false
  /\ Z.land (ADCSRA st') 120 = Z.land (ADCSRA st) 120
  /\ Z.land (ADMUX st') 63 = Z.land (ADMUX st) 63.
Proof.
  cbv zeta. rewrite adc_init_ADCSRA, adc_init_ADMUX.
  unfold ADEN, ADPS0, ADPS1, ADPS2, REFS0, REFS1.
  repeat split.
  1-6: fold_masks; push_bits; eval_bits; clear_bools.
  all: bitwise.
Qed.

(** C2: for every channel argument [c], [read_once] writes [c mod 8] into
    the three low bits of the multiplexer register and keeps its five high
    bits: this is the value of the register when the busy-wait loop is
    entered and whenever the call returns, and the call does return when the
    awaited conversion finishes within the fuel. *)
Theorem read_once_selects_channel (fuel : nat) (c : Z) (st : machine) :
  let m := ADMUX (select_channel c st) in
  Z.land m 7 = c mod 8
  /\ Z.land m 248 = Z.land (ADMUX st) 248
  /\ m = Z.lor (Z.land (ADMUX st) 248) (c mod 8)
  /\ ADMUX (armed c st) = m
  /\ (forall v st', read_once fuel c st = Ok (v, st') -> ADMUX st' = m)
  /\ (forall k v, pending c st = Busy k v -> (k < fuel)%nat ->
        exists st', read_once fuel c st = Ok (wrap16 v, st') /\ ADMUX st' = m).
Proof.
  cbv zeta. split; [apply select_channel_low|].
  split; [apply select_channel_high|].
  split; [apply select_channel_ADMUX|].
  split; [apply armed_frame|].
  split.
  - intros v st' H. apply (read_once_frame fuel c v st st' H).
  - intros k v Hp Hf. eexists. split.
    + apply (read_once_returns fuel k c v st Hp Hf).
    + cbn [log_call completed ADMUX]. apply armed_frame.
Qed.

(** C3: with a sample count of 64 or more, [read_oversampled] has the
    outcome it has with a sample count of 60: the same returned value and the
    same final machine, the log of single reads included. *)
Theorem read_oversampled_clamp (fuel : nat) (channel samples : Z) (st : machine) :
  64 <= samples ->
  read_oversampled fuel channel samples st
  = read_oversampled fuel channel 60 st.
Proof.
  intro H. unfold read_oversampled.
  destruct (Z.leb_spec 64 samples); [|lia].
  reflexivity.
Qed.

(** C4: the claim asks that [read_oversampled] with a sample count of zero
    returns a defined value.  The code does not: the loop is skipped and the
    final division has the saved count, zero, as its divisor. *)
Theorem read_oversampled_zero_samples (fuel : nat) (channel : Z) (st : machine) :
  read_oversampled fuel channel 0 st = DivByZero.
Proof.
  unfold read_oversampled. cbn [Z.leb Z.compare].
  rewrite accumulate_done by lia. reflexivity.
Qed.

(** C5: for a sample count of at least one, on hardware which answers every
    conversion, [read_oversampled] makes exactly as many [read_once] calls on
    the channel as the sample count after the clamp, adds their results in a
    sixteen bit accumulator, and returns the accumulator divided by the
    saved count. *)
Theorem read_oversampled_reads (fuel : nat) (channel samples : Z) (st : machine) :
  1 <= samples ->
  responsive fuel ->
  conv st = Idle ->
  let n := effective_samples samples in
  let vs := readings channel (Z.to_nat n) st in
  exists st',
    read_oversampled fuel channel samples st = Ok (sum16 vs / n, st')
    /\ List.length vs = Z.to_nat n
    /\ calls st' = calls st ++ map (pair channel) vs
    /\ started st' = (started st + Z.to_nat n)%nat.
Proof.
  intros Hs Hr Hi. cbv zeta.
  destruct (read_oversampled_idle fuel channel samples st Hr Hi Hs)
    as (st' & H & _ & Hst & Hc).
  exists st'. rewrite readings_length. auto.
Qed.

(** C1: for a sample count from 1 to 60, on hardware which answers every
    conversion with a reading in the range of the converter, 0 to 1023,
    [read_oversampled] returns the floor of the sum of the readings divided by
    the original sample count; the readings are the values which its
    [read_once] calls returned. *)
Theorem read_oversampled_average (fuel : nat) (channel samples : Z) (st : machine) :
  1 <= samples <= 60 ->
  responsive fuel ->
  conv st = Idle ->
  ten_bit ->
  let vs := readings channel (Z.to_nat samples) st in
  exists st',
    read_oversampled fuel channel samples st = Ok (total vs / samples, st')
    /\ calls st' = calls st ++ map (pair channel) vs.
Proof.
  intros Hs Hr Hi Ht. cbv zeta.
  destruct (read_oversampled_idle fuel channel samples st Hr Hi)
    as (st' & H & _ & _ & Hc); [lia|].
  assert (E : effective_samples samples = samples).
  { unfold effective_samples. destruct (Z.leb_spec 64 samples); lia. }
  rewrite E in H, Hc.
  pose proof (readings_ten_bit channel (Z.to_nat samples) st Ht) as Hv.
  pose proof (total_bounds 1023 _ Hv) as Hb.
  rewrite readings_length, Z2Nat.id in Hb by lia.
  exists st'. split; [|exact Hc].
  rewrite H. unfold sum16. rewrite fold_add16_exact; try lia.
  - reflexivity.
  - eapply Forall_impl; [|exact Hv]. simpl. intros; lia.
Qed.

(** C7: for a sample count of at least one, when every conversion delivers
    a ten bit value, the sixteen bit accumulator of [read_oversampled] never
    overflows (after any number of reads it holds the exact sum, which is at
    most 65535) and the returned average lies between 0 and 1023. *)
Theorem read_oversampled_no_overflow
        (fuel : nat) (channel samples : Z) (st : machine) :
  1 <= samples ->
  responsive fuel ->
  conv st = Idle ->
  ten_bit ->
  let n := effective_samples samples in
  let vs := readings channel (Z.to_nat n) st in
  exists r st',
    read_oversampled fuel channel samples st = Ok (r, st')
    /\ r = total vs / n
    /\ 0 <= r <= 1023
    /\ (forall k, sum16 (firstn k vs) = total (firstn k vs)
                  /\ 0 <= total (firstn k vs) <= 65535).
Proof.
  intros Hs Hr Hi Ht. cbv zeta.
  pose proof (effective_samples_range samples Hs) as Hn.
  set (n := effective_samples samples) in *.
  destruct (read_oversampled_idle fuel channel samples st Hr Hi Hs)
    as (st' & H & _ & _ & _).
  fold n in H.
  pose proof (readings_ten_bit channel (Z.to_nat n) st Ht) as Hv.
  pose proof (total_bounds 1023 _ Hv) as Hb.
  rewrite readings_length, Z2Nat.id in Hb by lia.
  assert (Hnn : Forall (fun v => 0 <= v) (readings channel (Z.to_nat n) st)).
  { eapply Forall_impl; [|exact Hv]. simpl. intros; lia. }
  assert (Hpre : forall k,
             sum16 (firstn k (readings channel (Z.to_nat n) st))
             = total (firstn k (readings channel (Z.to_nat n) st))
             /\ 0 <= total (firstn k (readings channel (Z.to_nat n) st)) <= 65535).
  { intro k. pose proof (total_firstn_le _ Hnn k) as Hk.
    split; [|lia]. unfold sum16. rewrite fold_add16_exact; try lia.
    apply Forall_prefix. exact Hnn. }
  exists (total (readings channel (Z.to_nat n) st) / n), st'.
  split; [|split; [reflexivity|split; [|exact Hpre]]].
  - rewrite H. destruct (Hpre (Z.to_nat n)) as (E & _).
    rewrite firstn_all2 in E by (rewrite readings_length; lia).
    rewrite E. reflexivity.
  - split.
    + apply Z.div_pos; lia.
    + apply Z.div_le_upper_bound; lia.
Qed.

(** C10: for a sample count from 61 to 63 no clamp is applied:
    [read_oversampled] makes exactly that many single reads and divides by
    that count, and with ten bit readings the accumulator holds the exact
    sum, which is at most 63 x 1023 = 64449. *)
Theorem read_oversampled_unclamped
        (fuel : nat) (channel samples : Z) (st : machine) :
  61 <= samples <= 63 ->
  responsive fuel ->
  conv st = Idle ->
  let vs := readings channel (Z.to_nat samples) st in
  exists st',
    read_oversampled fuel channel samples st = Ok (sum16 vs / samples, st')
    /\ List.length vs = Z.to_nat samples
    /\ calls st' = calls st ++ map (pair channel) vs
    /\ started st' = (started st + Z.to_nat samples)%nat
    /\ (ten_bit -> sum16 vs = total vs /\ 0 <= total vs <= 64449).
Proof.
  intros Hs Hr Hi. cbv zeta.
  destruct (read_oversampled_idle fuel channel samples st Hr Hi)
    as (st' & H & _ & Hst & Hc); [lia|].
  assert (E : effective_samples samples = samples).
  { unfold effective_samples. destruct (Z.leb_spec 64 samples); lia. }
  rewrite E in H, Hc, Hst.
  exists st'. rewrite readings_length.
  split; [exact H|split; [reflexivity|split; [exact Hc|split; [exact Hst|]]]].
  intro Ht.
  pose proof (readings_ten_bit channel (Z.to_nat samples) st Ht) as Hv.
  pose proof (total_bounds 1023 _ Hv) as Hb.
  rewrite readings_length, Z2Nat.id in Hb by lia.
  split; [|lia].
  unfold sum16. rewrite fold_add16_exact; try lia.
  eapply Forall_impl; [|exact Hv]. simpl. intros; lia.
Qed.

(** C8: [read_once] returns as soon as the fuel exceeds the number of polls
    after which the hardware clears the start bit of the awaited conversion,
    and then the start bit is clear; with less fuel it is still blocked; and
    when the hardware never clears the bit it is blocked whatever the fuel.
    The awaited conversion is always one of these two kinds. *)
Theorem read_once_terminates (ch : Z) (st : machine) :
  (forall k v, pending ch st = Busy k v ->
     forall fuel, (k < fuel)%nat ->
       exists st', read_once fuel ch st = Ok (wrap16 v, st')
                   /\ conv st' = Idle
                   /\ Z.testbit (ADCSRA st') ADSC = false)
  /\ (forall k v, pending ch st = Busy k v ->
        forall fuel, (fuel <= k)%nat -> read_once fuel ch st = Blocked)
  /\ (pending ch st = Stuck ->
        forall fuel, read_once fuel ch st = Blocked)
  /\ pending ch st <> Idle
  /\ (conv st = Idle ->
        pending ch st =
        match latency w (started st) with
        | Some k => Busy k (sample w (started st) (ADMUX (select_channel ch st)))
        | None => Stuck
        end).
Proof.
  split; [|split; [|split; [|split]]].
  - intros k v Hp fuel Hf. eexists. split.
    + apply (read_once_returns fuel k ch v st Hp Hf).
    + split; [reflexivity|].
      pose proof (completed_clear v (armed ch st)) as Hc.
      rewrite land_64_eqb in Hc. apply negb_true_iff in Hc. exact Hc.
  - intros k v Hp fuel Hf. apply (read_once_short fuel k ch v st Hp Hf).
  - intros Hp fuel. apply (read_once_stuck fuel ch st Hp).
  - apply pending_not_idle.
  - intro Hi. rewrite (pending_idle ch st Hi). reflexivity.
Qed.

(** ** Further properties of the driver *)

Lemma busy_wait_no_div (fuel : nat) :
  forall st, busy_wait fuel st <> DivByZero.
Proof.
  induction fuel as [|fuel IH]; intro st; simpl; [discriminate|].
  destruct (Z.land (ADCSRA (tick st)) 64 =? 0); [discriminate | apply IH].
Qed.

Lemma read_once_no_div (fuel : nat) (ch : Z) (st : machine) :
  read_once fuel ch st <> DivByZero.
Proof.
  rewrite read_once_unfold.
  pose proof (busy_wait_no_div fuel (armed ch st)) as H.
  destruct (busy_wait fuel (armed ch st)); simpl; congruence.
Qed.

Lemma read_once_inv (fuel : nat) (ch v : Z) (st st' : machine) :
  read_once fuel ch st = Ok (v, st') ->
  exists k x,
    pending ch st = Busy k x /\ (k < fuel)%nat /\ v = wrap16 x
    /\ st' = log_call ch (wrap16 x) (completed x (armed ch st)).
Proof.
  intro H. destruct (pending ch st) as [|k x|] eqn:Hp.
  - exfalso. exact (pending_not_idle ch st Hp).
  - destruct (Nat.lt_ge_cases k fuel) as [Hlt | Hge].
    + rewrite (read_once_returns fuel k ch x st Hp Hlt) in H.
      injection H as <- <-. exists k, x. auto.
    + rewrite (read_once_short fuel k ch x st Hp Hge) in H. discriminate.
  - rewrite (read_once_stuck fuel ch st Hp) in H. discriminate.
Qed.

Lemma armed_ADCSRA (ch : Z) (st : machine) :
  ADCSRA (armed ch st) = wrap8 (Z.lor (ADCSRA st) (Z.shiftl 1 ADSC)).
Proof.
  unfold armed. rewrite (proj1 (write_ADCSRA_regs _ _)).
  destruct (select_channel_frame ch st) as (-> & _). reflexivity.
Qed.

Lemma start_then_clear (a : Z) :
  Z.land (Z.land (wrap8 (Z.lor a (Z.shiftl 1 ADSC))) (Z.lnot (Z.shiftl 1 ADSC))) 191
  = Z.land a 191.
Proof. bitwise. Qed.

Lemma same_setup_refl (st : machine) : same_setup st st.
Proof. split; reflexivity. Qed.

Lemma same_setup_trans (a b c : machine) :
  same_setup a b -> same_setup b c -> same_setup a c.
Proof.
  intros (H1 & H2) (H3 & H4). split; congruence.
Qed.

Lemma read_once_post (fuel : nat) (ch v : Z) (st st' : machine) :
  read_once fuel ch st = Ok (v, st') ->
  conv st' = Idle
  /\ 0 <= v < 65536
  /\ same_setup st st'
  /\ calls st' = calls st ++ [(ch, v)].
Proof.
  intro H. destruct (read_once_inv fuel ch v st st' H) as (k & x & _ & _ & -> & ->).
  split; [reflexivity|]. split.
  { unfold wrap16. apply Z.mod_pos_bound. reflexivity. }
  split.
  - split.
    + cbn [log_call completed ADCSRA]. rewrite armed_ADCSRA.
      apply start_then_clear.
    + cbn [log_call completed ADMUX].
      rewrite (proj1 (armed_frame ch st)). apply select_channel_high.
  - cbn [log_call completed calls].
    rewrite (proj1 (proj2 (armed_frame ch st))). reflexivity.
Qed.

(** X1: whenever [read_once] returns, the converter is idle with its start
    bit clear, the returned value is the sixteen bit content of the data
    register, every other bit of the control register and the five high bits
    of the multiplexer register are as before the call, and the call is
    logged. *)
Theorem read_once_effect (fuel : nat) (ch v : Z) (st st' : machine) :
  read_once fuel ch st = Ok (v, st') ->
  conv st' = Idle
  /\ Z.testbit (ADCSRA st') ADSC = false
  /\ ADC st' = v
  /\ 0 <= v < 65536
  /\ same_setup st st'
  /\ calls st' = calls st ++ [(ch, v)].
Proof.
  intro H.
  destruct (read_once_post fuel ch v st st' H) as (Hi & Hv & Hs & Hc).
  destruct (read_once_inv fuel ch v st st' H) as (k & x & _ & _ & -> & ->).
  split; [exact Hi|]. split.
  { pose proof (completed_clear x (armed ch st)) as Hb.
    rewrite land_64_eqb in Hb. apply negb_true_iff in Hb. exact Hb. }
  split; [reflexivity|]. auto.
Qed.

Lemma wrap8_decrement (samples : Z) :
  0 < samples ->
  (Z.to_nat (wrap8 (samples - 1)) < Z.to_nat samples)%nat.
Proof.
  intro H. unfold wrap8.
  assert (0 <= (samples - 1) mod 2 ^ 8 <= samples - 1)
    by (split; [apply Z.mod_pos_bound | apply Z.mod_le]; lia).
  lia.
Qed.

Lemma accumulate_no_div (fuel : nat) (channel : Z) (n : nat) :
  forall samples result st,
    (Z.to_nat samples <= n)%nat ->
    accumulate fuel channel samples result st <> DivByZero.
Proof.
  induction n as [|n IH]; intros samples result st Hn.
  - rewrite accumulate_done by lia. discriminate.
  - destruct (Z_lt_dec 0 samples) as [Hpos|Hneg].
    + rewrite accumulate_step by exact Hpos.
      pose proof (read_once_no_div fuel channel st) as Hd.
      destruct (read_once fuel channel st) as [[v s1]| |]; cbn [bind];
        [|discriminate|congruence].
      apply IH. pose proof (wrap8_decrement samples Hpos). lia.
    + rewrite accumulate_done by lia. discriminate.
Qed.

Lemma accumulate_invariant (P : machine -> Prop) (fuel : nat) (channel : Z) :
  (forall v s s', read_once fuel channel s = Ok (v, s') -> P s -> P s') ->
  forall (n : nat) samples result st r st',
    (Z.to_nat samples <= n)%nat ->
    accumulate fuel channel samples result st = Ok (r, st') ->
    P st -> P st'.
Proof.
  intros Hstep n.
  induction n as [|n IH]; intros samples result st r st' Hn H HP.
  - rewrite accumulate_done in H by lia. injection H as _ <-. exact HP.
  - destruct (Z_lt_dec 0 samples) as [Hpos|Hneg].
    + rewrite accumulate_step in H by exact Hpos.
      destruct (read_once fuel channel st) as [[v s1]| |] eqn:E;
        cbn [bind] in H; try discriminate.
      apply (IH _ _ _ _ _) in H.
      * exact H.
      * pose proof (wrap8_decrement samples Hpos). lia.
      * exact (Hstep v st s1 E HP).
    + rewrite accumulate_done in H by lia. injection H as _ <-. exact HP.
Qed.

Lemma accumulate_any_return (fuel : nat) (channel : Z) (n : nat) :
  forall samples result st r st',
    Z.to_nat samples = n ->
    0 <= samples < 256 ->
    accumulate fuel channel samples result st = Ok (r, st') ->
    exists vs,
      List.length vs = n
      /\ Forall (fun v => 0 <= v < 65536) vs
      /\ calls st' = calls st ++ map (pair channel) vs
      /\ r = fold_left add16 vs result
      /\ same_setup st st'
      /\ (n = 0%nat -> st' = st)
      /\ (n <> 0%nat ->
          conv st' = Idle
          /\ ADMUX st' = Z.lor (Z.land (ADMUX st) 248) (channel mod 8)).
Proof.
  induction n as [|n IH]; intros samples result st r st' Hn Hs H.
  - rewrite accumulate_done in H by lia. injection H as <- <-.
    exists []. simpl. rewrite app_nil_r.
    repeat split; [constructor | congruence | congruence].
  - rewrite accumulate_step in H by lia.
    destruct (read_once fuel channel st) as [[v s1]| |] eqn:E;
      cbn [bind] in H; try discriminate.
    destruct (read_once_post fuel channel v st s1 E)
      as (Hi1 & Hv & Hset1 & Hc1).
    destruct (read_once_frame fuel channel v st s1 E) as (Hm1 & _).
    rewrite select_channel_ADMUX in Hm1.
    apply IH in H;
      [|unfold wrap8; rewrite Z.mod_small by lia; lia
       |unfold wrap8; rewrite Z.mod_small by lia; lia].
    destruct H as (vs & Hlen & Hall & Hc & Hr & Hset & Hzero & Hlast).
    exists (v :: vs). simpl.
    split; [congruence|]. split; [constructor; assumption|].
    split; [rewrite Hc, Hc1, <- app_assoc; reflexivity|].
    split; [exact Hr|].
    split; [exact (same_setup_trans st s1 st' Hset1 Hset)|].
    split; [discriminate|].
    intros _. destruct n as [|n].
    + rewrite (Hzero eq_refl). auto.
    + destruct Hlast as (Hi & Hm); [discriminate|].
      split; [exact Hi|]. rewrite Hm. destruct Hset1 as (_ & ->). reflexivity.
Qed.

(** X2: on any hardware, whenever [read_oversampled] returns for a sample
    count of at least one, it has logged exactly as many [read_once] calls
    on the channel as the sample count after the clamp, the result is the
    sixteen bit sum of the logged values divided by that count, the converter
    is idle, the bits a read does not own are as before, and the multiplexer
    is left on the channel. *)
Theorem read_oversampled_any_return
        (fuel : nat) (channel samples r : Z) (st st' : machine) :
  1 <= samples ->
  read_oversampled fuel channel samples st = Ok (r, st') ->
  exists vs,
    List.length vs = Z.to_nat (effective_samples samples)
    /\ Forall (fun v => 0 <= v < 65536) vs
    /\ calls st' = calls st ++ map (pair channel) vs
    /\ r = sum16 vs / effective_samples samples
    /\ conv st' = Idle
    /\ same_setup st st'
    /\ ADMUX st' = Z.lor (Z.land (ADMUX st) 248) (channel mod 8).
Proof.
  intros Hs H.
  pose proof (effective_samples_range samples Hs) as Hn.
  unfold read_oversampled in H. fold (effective_samples samples) in H.
  cbv zeta in H.
  destruct (accumulate fuel channel (effective_samples samples) 0 st)
    as [[acc s1]| |] eqn:E; cbn [bind] in H; try discriminate.
  unfold udiv in H.
  destruct (Z.eqb_spec (effective_samples samples) 0); [lia|].
  cbn [bind] in H. injection H as <- <-.
  destruct (accumulate_any_return fuel channel
              (Z.to_nat (effective_samples samples))
              (effective_samples samples) 0 st acc s1 eq_refl)
    as (vs & Hlen & Hall & Hc & Hr & Hset & _ & Hlast); [lia | exact E |].
  destruct Hlast as (Hi & Hm); [lia|].
  exists vs. rewrite Hr. unfold sum16. auto 10.
Qed.

(** X4: division by zero happens for a sample count of zero and for no
    other: with any other count the call returns or is blocked. *)
Theorem read_oversampled_div_by_zero
        (fuel : nat) (channel samples : Z) (st : machine) :
  read_oversampled fuel channel samples st = DivByZero <-> samples = 0.
Proof.
  split.
  - intro H. unfold read_oversampled in H. cbv zeta in H.
    fold (effective_samples samples) in H.
    pose proof (accumulate_no_div fuel channel
                  (Z.to_nat (effective_samples samples))
                  (effective_samples samples) 0 st (Nat.le_refl _)) as Hd.
    destruct (accumulate fuel channel (effective_samples samples) 0 st)
      as [[acc s1]| |]; cbn [bind] in H; try congruence.
    unfold udiv in H.
    destruct (Z.eqb_spec (effective_samples samples) 0) as [Hz|Hz];
      cbn [bind] in H; [|discriminate].
    unfold effective_samples in Hz.
    destruct (Z.leb_spec 64 samples); lia.
  - intros ->. unfold read_oversampled. cbv zeta. cbn [Z.leb Z.compare].
    rewrite accumulate_done by lia. reflexivity.
Qed.

Lemma same_setup_configured (st st' : machine) :
  same_setup st st' -> configured st -> configured st'.
Proof.
  intros (Ha & Hm) (Ca & Cm). split.
  - rewrite <- Ca.
    transitivity (Z.land (Z.land (ADCSRA st') 191) 135);
      [| rewrite Ha]; bitwise.
  - rewrite <- Cm.
    transitivity (Z.land (Z.land (ADMUX st') 248) 192);
      [| rewrite Hm]; bitwise.
Qed.

Lemma eval_operands_invariant (P : machine -> Prop) (fuel : nat) :
  (forall ch v s s', read_once fuel ch s = Ok (v, s') -> P s -> P s') ->
  forall order vals st vals' st',
    eval_operands fuel order vals st = Ok (vals', st') ->
    P st -> P st'.
Proof.
  intros Hstep order.
  induction order as [|i order IH]; intros vals st vals' st' H HP; simpl in H.
  - injection H as _ <-. exact HP.
  - destruct (eval_operand fuel (operand_at i) st) as [[v s1]| |] eqn:E;
      cbn [bind] in H; try discriminate.
    apply (IH _ _ _ _ H).
    unfold eval_operand in E. destruct (operand_at i) as [| |ch].
    + injection E as _ <-. exact HP.
    + injection E as _ <-. exact HP.
    + exact (Hstep ch v st s1 E HP).
Qed.

Lemma print_adc_invariant (P : machine -> Prop) (order : list nat) (fuel : nat)
      (serpt out : emstream) (st st' : machine) :
  (forall ch v s s', read_once fuel ch s = Ok (v, s') -> P s -> P s') ->
  print_adc order fuel serpt st = Ok (out, st') ->
  P st -> P st'.
Proof.
  intros Hstep H HP. unfold print_adc in H.
  destruct (eval_operands fuel order (fun _ => 0) st) as [[vals s1]| |] eqn:E;
    cbn [bind] in H; try discriminate.
  injection H as _ <-.
  exact (eval_operands_invariant P fuel Hstep order _ st vals s1 E HP).
Qed.

(** X5: the constructor establishes the configuration (converter enabled,
    prescaler 1,0,1, reference 1,0) from any register contents, and
    [read_once], [read_oversampled] and the diagnostic dump keep it whenever
    they return. *)
Theorem configured_kept (fuel : nat) (st : machine) :
  (forall p, configured (snd (adc_init p st)))
  /\ (forall ch v st',
        read_once fuel ch st = Ok (v, st') -> configured st -> configured st')
  /\ (forall channel samples r st',
        read_oversampled fuel channel samples st = Ok (r, st') ->
        configured st -> configured st')
  /\ (forall order serpt out st',
        print_adc order fuel serpt st = Ok (out, st') ->
        configured st -> configured st').
Proof.
  assert (Hstep : forall ch v s s',
             read_once fuel ch s = Ok (v, s') -> configured s -> configured s').
  { intros ch v s s' Hr. apply same_setup_configured.
    apply (read_once_post fuel ch v s s' Hr). }
  split; [|split; [|split]].
  - intro p. unfold configured.
    rewrite adc_init_ADCSRA, adc_init_ADMUX. split; bitwise.
  - intros ch v st'. apply Hstep.
  - intros channel samples r st' H HC.
    unfold read_oversampled in H. cbv zeta in H.
    fold (effective_samples samples) in H.
    destruct (accumulate fuel channel (effective_samples samples) 0 st)
      as [[acc s1]| |] eqn:E; cbn [bind] in H; try discriminate.
    destruct (udiv acc (effective_samples samples));
      cbn [bind] in H; try discriminate.
    injection H as _ <-.
    exact (accumulate_invariant configured fuel channel (Hstep channel)
             (Z.to_nat (effective_samples samples)) (effective_samples samples)
             0 st acc s1 (Nat.le_refl _) E HC).
  - intros order serpt out st' H.
    exact (print_adc_invariant configured order fuel serpt out st st' Hstep H).
Qed.

Lemma adc_init_twice_ADCSRA (a : Z) :
  wrap8 (Z.lor (wrap8 (Z.land (wrap8 (Z.lor (wrap8 (Z.lor a
    (Z.shiftl 1 ADEN))) (Z.shiftl 1 ADPS0))) (Z.lnot (Z.shiftl 1 ADPS1))))
    (Z.shiftl 1 ADPS2))
  = Z.lor (Z.land a 120) 133.
Proof. bitwise. Qed.

Lemma adc_init_twice_ADMUX (m : Z) :
  wrap8 (Z.land (wrap8 (Z.lor m (Z.shiftl 1 REFS0)))
                (Z.lnot (Z.shiftl 1 REFS1)))
  = Z.lor (Z.land m 63) 64.
Proof. bitwise. Qed.

(** X6: the constructor leaves [(ADCSRA & 0x78) | 0x85] in the control
    register and [(ADMUX & 0x3F) | 0x40] in the multiplexer register, whatever
    they held, and constructing a second driver changes neither register
    again. *)
Theorem adc_init_idempotent (p q : emstream) (st : machine) :
  let st1 := snd (adc_init p st) in
  let st2 := snd (adc_init q st1) in
  ADCSRA st1 = Z.lor (Z.land (ADCSRA st) 120) 133
  /\ ADMUX st1 = Z.lor (Z.land (ADMUX st) 63) 64
  /\ ADCSRA st2 = ADCSRA st1
  /\ ADMUX st2 = ADMUX st1.
Proof.
  cbv zeta. rewrite !adc_init_ADCSRA, !adc_init_ADMUX.
  rewrite !adc_init_twice_ADCSRA, !adc_init_twice_ADMUX.
  repeat split; bitwise.
Qed.

(** X7: an oversampled read of one sample is a single read: the same
    outcome, returned value and final machine included. *)
Theorem read_oversampled_one_sample (fuel : nat) (channel : Z) (st : machine) :
  read_oversampled fuel channel 1 st = read_once fuel channel st.
Proof.
  unfold read_oversampled. cbv zeta.
  change (64 <=? 1) with false. cbv iota.
  rewrite accumulate_step by lia.
  destruct (read_once fuel channel st) as [[v s1]| |] eqn:E; cbn [bind];
    try reflexivity.
  destruct (read_once_post fuel channel v st s1 E) as (_ & Hv & _).
  change (wrap8 (1 - 1)) with 0. rewrite accumulate_done by lia.
  cbn [bind]. unfold udiv. cbn [Z.eqb bind].
  unfold wrap16. change (2 ^ 16) with 65536.
  rewrite Z.add_0_l, Z.mod_small, Z.div_1_r by lia. reflexivity.
Qed.

Lemma read_once_registers (fuel : nat) (ch v : Z) (st st' : machine) :
  read_once fuel ch st = Ok (v, st') ->
  ADCSRA st' = Z.land (wrap8 (Z.lor (ADCSRA st) (Z.shiftl 1 ADSC)))
                      (Z.lnot (Z.shiftl 1 ADSC))
  /\ ADC st' = v.
Proof.
  intro H. destruct (read_once_inv fuel ch v st st' H) as (k & x & _ & _ & -> & ->).
  cbn [log_call completed ADCSRA ADC]. rewrite armed_ADCSRA. auto.
Qed.

Lemma start_then_clear_again (a : Z) :
  Z.land (wrap8 (Z.lor (Z.land (wrap8 (Z.lor a (Z.shiftl 1 ADSC)))
                               (Z.lnot (Z.shiftl 1 ADSC)))
                       (Z.shiftl 1 ADSC)))
         (Z.lnot (Z.shiftl 1 ADSC))
  = Z.land (wrap8 (Z.lor a (Z.shiftl 1 ADSC))) (Z.lnot (Z.shiftl 1 ADSC)).
Proof. bitwise. Qed.

(** X8: on a stable input and responsive hardware, two consecutive reads
    of a channel return the same value, and the second read leaves all three
    registers as the first one left them. *)
Theorem read_once_stable (fuel : nat) (ch : Z) (st : machine) :
  stable ->
  responsive fuel ->
  conv st = Idle ->
  exists v st1 st2,
    read_once fuel ch st = Ok (v, st1)
    /\ read_once fuel ch st1 = Ok (v, st2)
    /\ ADCSRA st2 = ADCSRA st1
    /\ ADMUX st2 = ADMUX st1
    /\ ADC st2 = ADC st1.
Proof.
  intros Hst Hr Hi.
  destruct (read_once_idle fuel ch st Hr Hi) as (st1 & R1 & I1 & _ & _ & M1).
  destruct (read_once_idle fuel ch st1 Hr I1) as (st2 & R2 & _ & _ & _ & M2).
  assert (Hm : ADMUX (select_channel ch st1) = ADMUX (select_channel ch st)).
  { apply select_channel_again. rewrite M1. apply select_channel_high. }
  assert (E : reading ch st1 0 = reading ch st 0).
  { unfold reading. rewrite Hm.
    rewrite (Hst (started st1 + 0)%nat (started st + 0)%nat). reflexivity. }
  rewrite E in R2.
  exists (reading ch st 0), st1, st2.
  destruct (read_once_registers _ _ _ _ _ R1) as (A1 & D1).
  destruct (read_once_registers _ _ _ _ _ R2) as (A2 & D2).
  split; [exact R1|]. split; [exact R2|]. split; [|split].
  - rewrite A2, A1. apply start_then_clear_again.
  - rewrite M2, Hm, M1. reflexivity.
  - rewrite D2, D1. reflexivity.
Qed.

Lemma total_between (lo hi : Z) (vs : list Z) :
  Forall (fun v => lo <= v <= hi) vs ->
  lo * Z.of_nat (List.length vs) <= total vs <= hi * Z.of_nat (List.length vs).
Proof.
  induction 1 as [|v vs Hv Hvs IH]; simpl List.length; simpl total; [lia|].
  rewrite Nat2Z.inj_succ. nia.
Qed.

(** X9: when every conversion delivers a ten bit value between [lo] and
    [hi], the average returned by [read_oversampled] lies between [lo] and
    [hi]; on a constant input it is that input. *)
Theorem read_oversampled_between
        (fuel : nat) (channel samples lo hi : Z) (st : machine) :
  1 <= samples ->
  0 <= lo -> hi <= 1023 ->
  within lo hi ->
  responsive fuel ->
  conv st = Idle ->
  exists r st',
    read_oversampled fuel channel samples st = Ok (r, st')
    /\ lo <= r <= hi.
Proof.
  intros Hs Hlo Hhi Hw Hr Hi.
  pose proof (effective_samples_range samples Hs) as Hn.
  destruct (read_oversampled_idle fuel channel samples st Hr Hi Hs)
    as (st' & H & _).
  set (n := effective_samples samples) in *.
  assert (Hv : Forall (fun v => lo <= v <= hi) (readings channel (Z.to_nat n) st)).
  { unfold readings. apply Forall_map, Forall_forall. intros i _.
    unfold reading, wrap16. change (2 ^ 16) with 65536.
    specialize (Hw (started st + i)%nat (ADMUX (select_channel channel st))).
    rewrite Z.mod_small by lia. exact Hw. }
  pose proof (total_between lo hi _ Hv) as Hb.
  rewrite readings_length, Z2Nat.id in Hb by lia.
  assert (Hsum : sum16 (readings channel (Z.to_nat n) st)
                 = total (readings channel (Z.to_nat n) st)).
  { unfold sum16. rewrite fold_add16_exact; try lia; [|nia].
    eapply Forall_impl; [|exact Hv]. simpl. intros; lia. }
  rewrite Hsum in H.
  exists (total (readings channel (Z.to_nat n) st) / n), st'.
  split; [exact H|]. split.
  - apply Z.div_le_lower_bound; lia.
  - apply Z.div_le_upper_bound; lia.
Qed.

(** ** The operands of the diagnostic dump *)

Lemma store_same (i : nat) (v : Z) (vals : nat -> Z) : store i v vals i = v.
Proof. unfold store. rewrite Nat.eqb_refl. reflexivity. Qed.

Lemma store_other (i j : nat) (v : Z) (vals : nat -> Z) :
  j <> i -> store i v vals j = vals j.
Proof.
  intro H. unfold store. apply Nat.eqb_neq in H. rewrite H. reflexivity.
Qed.

Lemma control_after_read_again (a : Z) :
  control_after_read (control_after_read a) = control_after_read a.
Proof. unfold control_after_read. bitwise. Qed.

Lemma control_after_read_frame (a : Z) :
  Z.land (control_after_read a) 191 = Z.land a 191.
Proof. unfold control_after_read. bitwise. Qed.

Lemma channel_bits_high (m k : Z) :
  0 <= k < 8 ->
  Z.land (Z.lor (Z.land m 248) k) 248 = Z.land m 248.
Proof.
  intro Hk. rewrite <- (Z.mod_small k 8) by lia.
  change 8 with (2 ^ 3). rewrite <- Z.land_ones by lia.
  change (Z.ones 3) with 7. bitwise.
Qed.

Lemma reached_refl (st : machine) : reached st st.
Proof. split; left; reflexivity. Qed.

Lemma reached_same_setup (st s : machine) :
  reached st s -> same_setup st s.
Proof.
  intros (Ha & Hm). split.
  - destruct Ha as [-> | ->]; [reflexivity | apply control_after_read_frame].
  - destruct Hm as [-> | (k & Hk & ->)];
      [reflexivity | apply channel_bits_high; exact Hk].
Qed.

Lemma read_once_reached (fuel : nat) (ch v : Z) (st s s' : machine) :
  reached st s ->
  read_once fuel ch s = Ok (v, s') ->
  reached st s'.
Proof.
  intros Hreach H.
  pose proof (reached_same_setup st s Hreach) as (_ & Hhigh).
  destruct Hreach as (Ha & _).
  destruct (read_once_registers fuel ch v s s' H) as (Hc & _).
  destruct (read_once_frame fuel ch v s s' H) as (Hm & _).
  rewrite select_channel_ADMUX in Hm.
  split.
  - right. simpl. rewrite Hc. fold (control_after_read (ADCSRA s)).
    destruct Ha as [-> | ->];
      [reflexivity | apply control_after_read_again].
  - right. exists (ch mod 8). split; [apply Z.mod_pos_bound; lia|].
    rewrite Hm, Hhigh. reflexivity.
Qed.

Lemma read_once_started (fuel : nat) (ch v : Z) (s s' : machine) :
  conv s = Idle ->
  read_once fuel ch s = Ok (v, s') ->
  started s' = S (started s).
Proof.
  intros Hi H.
  destruct (read_once_inv fuel ch v s s' H) as (k & x & _ & _ & _ & ->).
  rewrite (armed_idle ch s Hi). reflexivity.
Qed.

Lemma read_once_echo (fuel : nat) (ch v : Z) (s s' : machine) :
  echo ->
  conv s = Idle ->
  read_once fuel ch s = Ok (v, s') ->
  v = ch mod 8.
Proof.
  intros He Hi H.
  destruct (read_once_inv fuel ch v s s' H) as (k & x & Hp & _ & -> & _).
  rewrite (pending_idle ch s Hi) in Hp. unfold begin_conversion in Hp.
  destruct (latency w (started (select_channel ch s))); [|discriminate].
  injection Hp as _ <-. rewrite He.
  change (wrap16 (Z.land (ADMUX (select_channel ch s)) 7) = ch mod 8).
  rewrite select_channel_low.
  unfold wrap16. change (2 ^ 16) with 65536.
  pose proof (Z.mod_pos_bound ch 8). apply Z.mod_small. lia.
Qed.

Lemma eval_operand_post (fuel : nat) (op : operand) (v : Z) (st s s1 : machine) :
  reached st s ->
  eval_operand fuel op s = Ok (v, s1) ->
  reached st s1
  /\ operand_value st op v
  /\ calls s1 = calls s ++ step_log op v
  /\ (conv s = Idle -> conv s1 = Idle)
  /\ (step_log op v <> [] -> conv s1 = Idle)
  /\ (conv s = Idle ->
      started s1 = (started s + List.length (step_log op v))%nat)
  /\ (conv s = Idle -> echo -> forall ch, op = Channel ch -> v = ch mod 8).
Proof.
  intros Hreach H. destruct op as [| |ch]; simpl in H.
  - injection H as <- <-. simpl. rewrite app_nil_r, Nat.add_0_r.
    destruct Hreach as (Ha & Hm).
    repeat split; try assumption; try congruence; try discriminate.
  - injection H as <- <-. simpl. rewrite app_nil_r, Nat.add_0_r.
    destruct Hreach as (Ha & Hm).
    repeat split; try assumption; try congruence; try discriminate.
  - destruct (read_once_post fuel ch v s s1 H) as (Hi & Hv & _ & Hc).
    split; [exact (read_once_reached fuel ch v st s s1 Hreach H)|].
    split; [exact Hv|]. split; [exact Hc|].
    split; [intros _; exact Hi|]. split; [intros _; exact Hi|].
    split.
    + intro Hidle. rewrite (read_once_started fuel ch v s s1 Hidle H).
      simpl. lia.
    + intros Hidle He c Hc'. injection Hc' as <-.
      exact (read_once_echo fuel ch v s s1 He Hidle H).
Qed.

Lemma read_log_cons (vals : nat -> Z) (i : nat) (order : list nat) :
  read_log vals (i :: order)
  = step_log (operand_at i) (vals i) ++ read_log vals order.
Proof. reflexivity. Qed.

Lemma eval_operands_post (fuel : nat) (st : machine) (order : list nat) :
  NoDup order ->
  forall vals s vals' s',
    reached st s ->
    eval_operands fuel order vals s = Ok (vals', s') ->
    reached st s'
    /\ calls s' = calls s ++ read_log vals' order
    /\ (forall i, In i order -> operand_value st (operand_at i) (vals' i))
    /\ (forall i, ~ In i order -> vals' i = vals i)
    /\ (conv s = Idle -> conv s' = Idle)
    /\ (read_log vals' order <> [] -> conv s' = Idle)
    /\ (conv s = Idle ->
        started s' = (started s + List.length (read_log vals' order))%nat)
    /\ (conv s = Idle -> echo ->
        forall i ch, In i order -> operand_at i = Channel ch ->
                     vals' i = ch mod 8).
Proof.
  induction 1 as [|i order Hni Hnd IH]; intros vals s vals' s' Hreach H;
    simpl in H.
  - injection H as <- <-. simpl. rewrite app_nil_r, Nat.add_0_r.
    split; [exact Hreach|]. split; [reflexivity|].
    split; [intros i []|]. split; [reflexivity|].
    split; [auto|]. split; [congruence|]. split; [reflexivity|].
    intros _ _ i ch [].
  - destruct (eval_operand fuel (operand_at i) s) as [[v s1]| |] eqn:E;
      cbn [bind] in H; try discriminate.
    destruct (eval_operand_post fuel _ v st s s1 Hreach E)
      as (R1 & V1 & C1 & I1 & L1 & S1 & E1).
    destruct (IH _ _ _ _ R1 H) as (R2 & C2 & V2 & U2 & I2 & L2 & S2 & E2).
    assert (Hv : vals' i = v).
    { rewrite (U2 i Hni). apply store_same. }
    rewrite read_log_cons, Hv.
    split; [exact R2|].
    split; [rewrite C2, C1, <- app_assoc; reflexivity|].
    split.
    { intros j [<- | Hj]; [rewrite Hv; exact V1 | exact (V2 j Hj)]. }
    split.
    { intros j Hj. rewrite (U2 j) by (intro; apply Hj; right; assumption).
      apply store_other. intro; apply Hj; left; congruence. }
    split; [intro Hi; exact (I2 (I1 Hi))|].
    split.
    { intro Hne. destruct (read_log vals' order) as [|x r] eqn:Er.
      - rewrite app_nil_r in Hne. rewrite <- (I2 (L1 Hne)). reflexivity.
      - apply L2. discriminate. }
    split.
    { intro Hi. rewrite (S2 (I1 Hi)), (S1 Hi), length_app. lia. }
    intros Hi He j ch [<- | Hj] Hop.
    + rewrite Hv. exact (E1 Hi He ch Hop).
    + exact (E2 (I1 Hi) He j ch Hj Hop).
Qed.

Lemma eval_operands_returns (fuel : nat) (order : list nat) :
  responsive fuel ->
  forall vals s,
    conv s = Idle ->
    exists vals' s', eval_operands fuel order vals s = Ok (vals', s').
Proof.
  intro Hr. induction order as [|i order IH]; intros vals s Hi; simpl.
  - eauto.
  - destruct (operand_at i) as [| |ch]; simpl.
    + apply IH. exact Hi.
    + apply IH. exact Hi.
    + destruct (read_once_idle fuel ch s Hr Hi) as (s1 & R & I1 & _).
      rewrite R. cbn [bind]. apply IH. exact I1.
Qed.



Lemma eval_operands_blocked (fuel : nat) (order : list nat) :
  forall vals s,
    (forall ch, read_once fuel ch s = Blocked) ->
    (exists i ch, In i order /\ operand_at i = Channel ch) ->
    eval_operands fuel order vals s = Blocked.
Proof.
  induction order as [|i order IH]; intros vals s Hb (j & ch & Hj & Hop).
  - contradiction.
  - simpl. destruct (operand_at i) as [| |c] eqn:Ei; simpl.
    + apply IH; [exact Hb|]. destruct Hj as [<- | Hj]; [congruence|].
      exists j, ch. auto.
    + apply IH; [exact Hb|]. destruct Hj as [<- | Hj]; [congruence|].
      exists j, ch. auto.
    + rewrite Hb. reflexivity.
Qed.

Lemma permutation_lines (order : list nat) :
  Permutation order (seq 0 10) ->
  NoDup order /\ (forall i, (i < 10)%nat -> In i order).
Proof.
  intro H. split.
  - apply (Permutation_NoDup (Permutation_sym H)). apply seq_NoDup.
  - intros i Hi. apply (Permutation_in i (Permutation_sym H)).
    apply in_seq. lia.
Qed.

Lemma read_log_permutation (vals : nat -> Z) (order : list nat) :
  Permutation order (seq 0 10) ->
  Permutation (read_log vals order)
    [(0, vals 2%nat); (1, vals 3%nat); (2, vals 4%nat); (3, vals 5%nat);
     (4, vals 6%nat); (5, vals 7%nat); (6, vals 8%nat); (7, vals 9%nat)].
Proof.
  intro H. unfold read_log.
  apply (Permutation_flat_map (fun i => step_log (operand_at i) (vals i))) in H.
  exact H.
Qed.

(** C9: on hardware which answers every conversion, and in whatever order
    the operands of the [<<] chain are evaluated, the diagnostic dump appends
    to the serial port, in this order, the labelled raw value of the control
    register, the labelled raw value of the multiplexer register, and eight
    labelled lines, one for each channel from 0 to 7 in ascending order,
    each holding the result of the one [read_once] call made for that
    channel; these eight conversions are all it starts.  The register values
    are those of the registers as the dump found them or as one of its reads
    left them.  With the operands evaluated from left to right, the registers
    are printed as found and the reads are made in ascending order.  On a
    peripheral where channel [k] reads [k], label [k] is paired with value
    [k]. *)
Theorem print_adc_dump (order : list nat) (fuel : nat) (serpt : emstream)
        (st : machine) :
  Permutation order (seq 0 10) ->
  responsive fuel ->
  conv st = Idle ->
  exists (vals : nat -> Z) (l : list (Z * Z)) (st' : machine),
    print_adc order fuel serpt st
    = Ok (serpt ++
          [Text "ADCSRA: "; Num (vals 0%nat); Endl;
           Text "ADMUX: "; Num (vals 1%nat); Endl;
           Text "ADC0 = "; Num (vals 2%nat); Endl;
           Text "ADC1 = "; Num (vals 3%nat); Endl;
           Text "ADC2 = "; Num (vals 4%nat); Endl;
           Text "ADC3 = "; Num (vals 5%nat); Endl;
           Text "ADC4 = "; Num (vals 6%nat); Endl;
           Text "ADC5 = "; Num (vals 7%nat); Endl;
           Text "ADC6 = "; Num (vals 8%nat); Endl;
           Text "ADC7 = "; Num (vals 9%nat); Endl], st')
    /\ operand_value st Control (vals 0%nat)
    /\ operand_value st Multiplexer (vals 1%nat)
    /\ calls st' = calls st ++ l
    /\ Permutation l
         [(0, vals 2%nat); (1, vals 3%nat); (2, vals 4%nat); (3, vals 5%nat);
          (4, vals 6%nat); (5, vals 7%nat); (6, vals 8%nat); (7, vals 9%nat)]
    /\ started st' = (started st + 8)%nat
    /\ (order = left_to_right ->
        vals 0%nat = ADCSRA st /\ vals 1%nat = ADMUX st
        /\ l = [(0, vals 2%nat); (1, vals 3%nat); (2, vals 4%nat);
                (3, vals 5%nat); (4, vals 6%nat); (5, vals 7%nat);
                (6, vals 8%nat); (7, vals 9%nat)])
    /\ (echo -> forall k, (k < 8)%nat -> vals (k + 2)%nat = Z.of_nat k).
Proof.
  intros Hp Hr Hi.
  destruct (permutation_lines order Hp) as (Hnd & Hin).
  destruct (eval_operands_returns fuel order Hr (fun _ => 0) st Hi)
    as (vals & st' & E).
  destruct (eval_operands_post fuel st order Hnd _ st vals st'
              (reached_refl st) E)
    as (_ & Hc & Hv & _ & _ & _ & Hs & He).
  pose proof (read_log_permutation vals order Hp) as Hl.
  exists vals, (read_log vals order), st'.
  split; [unfold print_adc; rewrite E; reflexivity|].
  split; [exact (Hv 0%nat (Hin 0%nat ltac:(lia)))|].
  split; [exact (Hv 1%nat (Hin 1%nat ltac:(lia)))|].
  split; [exact Hc|]. split; [exact Hl|].
  split; [rewrite (Hs Hi), (Permutation_length Hl); reflexivity|].
  split.
  - intros ->. unfold left_to_right in E. simpl in E.
    assert (Hnd' : NoDup (seq 2 8)) by apply seq_NoDup.
    destruct (eval_operands_post fuel st (seq 2 8) Hnd' _ st vals st'
                (reached_refl st) E) as (_ & _ & _ & Hu & _).
    split; [|split; [|reflexivity]].
    + rewrite (Hu 0%nat) by (rewrite in_seq; lia). reflexivity.
    + rewrite (Hu 1%nat) by (rewrite in_seq; lia). reflexivity.
  - intros Hecho k Hk.
    assert (Hop : operand_at (k + 2) = Channel (Z.of_nat k)).
    { do 8 (destruct k as [|k]; [reflexivity|]). lia. }
    rewrite (He Hi Hecho (k + 2)%nat (Z.of_nat k) (Hin (k + 2)%nat ltac:(lia)) Hop).
    apply Z.mod_small. lia.
Qed.


(** X10: when the peripheral never finishes the next conversion, an
    oversampled read of at least one sample and the diagnostic dump, in
    whatever order its operands are evaluated, are blocked whatever the
    fuel. *)
Theorem dead_hardware_blocks (st : machine) :
  conv st = Idle ->
  latency w (started st) = None ->
  forall fuel,
    (forall channel samples, 1 <= samples ->
       read_oversampled fuel channel samples st = Blocked)
    /\ (forall order serpt, Permutation order (seq 0 10) ->
          print_adc order fuel serpt st = Blocked).
Proof.
  intros Hi Hl fuel.
  assert (Hb : forall ch, read_once fuel ch st = Blocked).
  { intro ch. apply read_once_stuck. rewrite (pending_idle ch st Hi).
    unfold begin_conversion.
    destruct (select_channel_frame ch st) as (_ & _ & _ & -> & _).
    rewrite Hl. reflexivity. }
  split.
  - intros channel samples Hs.
    pose proof (effective_samples_range samples Hs) as Hn.
    unfold read_oversampled. cbv zeta. fold (effective_samples samples).
    rewrite accumulate_step by lia. rewrite Hb. reflexivity.
  - intros order serpt Hp. unfold print_adc.
    rewrite (eval_operands_blocked fuel order (fun _ => 0) st Hb);
      [reflexivity|].
    exists 2%nat, 0. split; [|reflexivity].
    apply (permutation_lines order Hp). lia.
Qed.

End Driver.


(** ** The test benches *)

Lemma mock_responsive (k fuel : nat) (l : list Z) :
  (k < fuel)%nat -> responsive (mock k l) fuel.
Proof. intros H n. exists k. split; [reflexivity | exact H]. Qed.

Lemma mock_ten_bit (k : nat) (l : list Z) :
  forallb (fun v => (0 <=? v) && (v <=? 1023)) l = true ->
  ten_bit (mock k l).
Proof.
  intros H n mux. simpl.
  rewrite forallb_forall in H.
  destruct (nth_in_or_default n l 0) as [Hin | ->]; [|lia].
  apply H in Hin. apply andb_true_iff in Hin. lia.
Qed.

Lemma channel_echo_responsive : responsive channel_echo 4.
Proof. intro n. exists 3%nat. split; [reflexivity | lia]. Qed.

(** A baseline with every untargeted bit set in one register and clear in
    the other: only the targeted bits change. *)
Example adc_init_baseline :
  let st := mkMachine 58 191 0 Idle 0 [] in
  let st' := snd (adc_init dead [] st) in
  ADCSRA st' = 189 /\ ADMUX st' = 127
  /\ fst (adc_init dead [] st) = [Text "A/D constructor OK"; Endl].
Proof. repeat split. Qed.

(** C1, witness: mocked readings 100, 200, 300 and three samples give 200. *)
Lemma read_oversampled_average_mock :
  exists st',
    read_oversampled (mock 2 [100; 200; 300]) 5 1 3 reset_machine
    = Ok (200, st')
    /\ calls st' = [(1, 100); (1, 200); (1, 300)].
Proof.
  destruct (read_oversampled_average (mock 2 [100; 200; 300]) 5 1 3 reset_machine)
    as (st' & H & Hc).
  - lia.
  - apply mock_responsive. lia.
  - reflexivity.
  - apply mock_ten_bit. reflexivity.
  - exists st'. split; [exact H | exact Hc].
Defined.

(** C2, witness: channel argument 13 selects channel 5 and keeps the
    reference bits. *)
Lemma read_once_selects_channel_13 :
  let st := mkMachine 133 64 0 Idle 0 [] in
  exists v st',
    read_once (mock 2 [321]) 5 13 st = Ok (v, st') /\ ADMUX st' = 69.
Proof.
  cbv zeta. eexists. eexists. split; [reflexivity|].
  destruct (read_once_selects_channel (mock 2 [321]) 5 13
              (mkMachine 133 64 0 Idle 0 [])) as (_ & _ & _ & _ & H & _).
  rewrite (H _ _ eq_refl). reflexivity.
Defined.

(** C3, witness: 200 samples behave as 60. *)
Lemma read_oversampled_clamp_200 :
  64 <= 200
  /\ read_oversampled channel_echo 4 3 200 reset_machine
     = read_oversampled channel_echo 4 3 60 reset_machine.
Proof.
  split; [lia|].
  apply (read_oversampled_clamp channel_echo 4 3 200 reset_machine). lia.
Defined.

(** C5, witness: three reads of channel 1. *)
Lemma read_oversampled_reads_mock :
  exists st',
    read_oversampled (mock 2 [100; 200; 300]) 5 1 3 reset_machine
    = Ok (200, st')
    /\ started st' = 3%nat.
Proof.
  destruct (read_oversampled_reads (mock 2 [100; 200; 300]) 5 1 3 reset_machine)
    as (st' & H & _ & _ & Hs).
  - lia.
  - apply mock_responsive. lia.
  - reflexivity.
  - exists st'. split; [exact H | exact Hs].
Defined.

(** C7, witness: two full scale readings average to 1023. *)
Lemma read_oversampled_no_overflow_mock :
  exists r st',
    read_oversampled (mock 0 [1023; 1023]) 1 0 2 reset_machine = Ok (r, st')
    /\ r = 1023.
Proof.
  destruct (read_oversampled_no_overflow (mock 0 [1023; 1023]) 1 0 2 reset_machine)
    as (r & st' & H & Hr & _).
  - lia.
  - apply mock_responsive. lia.
  - reflexivity.
  - apply mock_ten_bit. reflexivity.
  - exists r, st'. split; [exact H | exact Hr].
Defined.

(** C8, witness: a conversion which takes two polls is read with three
    polls of fuel and not with two; a dead peripheral blocks the call. *)
Lemma read_once_terminates_bench :
  (exists st', read_once (mock 2 [321]) 3 0 reset_machine = Ok (321, st'))
  /\ read_once (mock 2 [321]) 2 0 reset_machine = Blocked
  /\ (forall fuel, read_once dead fuel 0 reset_machine = Blocked).
Proof.
  destruct (read_once_terminates (mock 2 [321]) 0 reset_machine)
    as (Hret & Hshort & _).
  destruct (read_once_terminates dead 0 reset_machine)
    as (_ & _ & Hstuck & _).
  split; [|split].
  - destruct (Hret 2%nat 321 eq_refl 3%nat) as (st' & H & _); [lia|].
    exists st'. exact H.
  - apply (Hshort 2%nat 321 eq_refl 2%nat). lia.
  - apply Hstuck. reflexivity.
Defined.

(** The two orders on a configured machine with channel 5 selected and
    readings 10, 20, ..., 80: from left to right the multiplexer is printed
    as found and channel [k] gets the reading number [k]; from right to left
    the multiplexer is printed as the read of channel 0 left it and channel
    7 is read first. *)
Example print_adc_left_to_right_run :
  exists st',
    print_adc (mock 0 [10; 20; 30; 40; 50; 60; 70; 80]) left_to_right 1 []
              (mkMachine 133 69 0 Idle 0 [])
    = Ok ([Text "ADCSRA: "; Num 133; Endl; Text "ADMUX: "; Num 69; Endl;
           Text "ADC0 = "; Num 10; Endl; Text "ADC1 = "; Num 20; Endl;
           Text "ADC2 = "; Num 30; Endl; Text "ADC3 = "; Num 40; Endl;
           Text "ADC4 = "; Num 50; Endl; Text "ADC5 = "; Num 60; Endl;
           Text "ADC6 = "; Num 70; Endl; Text "ADC7 = "; Num 80; Endl], st')
    /\ ADMUX st' = 71.
Proof. eexists. split; [vm_compute; reflexivity|]. vm_compute. reflexivity. Qed.

Example print_adc_right_to_left_run :
  exists st',
    print_adc (mock 0 [10; 20; 30; 40; 50; 60; 70; 80]) right_to_left 1 []
              (mkMachine 133 69 0 Idle 0 [])
    = Ok ([Text "ADCSRA: "; Num 133; Endl; Text "ADMUX: "; Num 64; Endl;
           Text "ADC0 = "; Num 80; Endl; Text "ADC1 = "; Num 70; Endl;
           Text "ADC2 = "; Num 60; Endl; Text "ADC3 = "; Num 50; Endl;
           Text "ADC4 = "; Num 40; Endl; Text "ADC5 = "; Num 30; Endl;
           Text "ADC6 = "; Num 20; Endl; Text "ADC7 = "; Num 10; Endl], st')
    /\ ADMUX st' = 64
    /\ calls st' = [(7, 10); (6, 20); (5, 30); (4, 40);
                    (3, 50); (2, 60); (1, 70); (0, 80)].
Proof.
  eexists. split; [vm_compute; reflexivity|].
  split; vm_compute; reflexivity.
Qed.

Lemma right_to_left_permutation : Permutation right_to_left (seq 0 10).
Proof. apply Permutation_sym, Permutation_rev. Qed.

Lemma channel_echo_echo : echo channel_echo.
Proof. intros n mux. reflexivity. Qed.

(** C9, witness: on the peripheral where channel [k] reads [k], with the
    operands evaluated from right to left. *)
Lemma print_adc_dump_echo :
  exists vals l st',
    print_adc channel_echo right_to_left 4 [] reset_machine
    = Ok ([Text "ADCSRA: "; Num (vals 0%nat); Endl;
           Text "ADMUX: "; Num (vals 1%nat); Endl;
           Text "ADC0 = "; Num (vals 2%nat); Endl;
           Text "ADC1 = "; Num (vals 3%nat); Endl;
           Text "ADC2 = "; Num (vals 4%nat); Endl;
           Text "ADC3 = "; Num (vals 5%nat); Endl;
           Text "ADC4 = "; Num (vals 6%nat); Endl;
           Text "ADC5 = "; Num (vals 7%nat); Endl;
           Text "ADC6 = "; Num (vals 8%nat); Endl;
           Text "ADC7 = "; Num (vals 9%nat); Endl], st')
    /\ calls st' = l
    /\ Permutation l
         [(0, vals 2%nat); (1, vals 3%nat); (2, vals 4%nat); (3, vals 5%nat);
          (4, vals 6%nat); (5, vals 7%nat); (6, vals 8%nat); (7, vals 9%nat)]
    /\ vals 2%nat = 0 /\ vals 9%nat = 7
    /\ started st' = 8%nat.
Proof.
  destruct (print_adc_dump channel_echo right_to_left 4 [] reset_machine)
    as (vals & l & st' & H & _ & _ & Hc & Hl & Hs & _ & He).
  - apply right_to_left_permutation.
  - apply channel_echo_responsive.
  - reflexivity.
  - exists vals, l, st'. split; [exact H|]. split; [exact Hc|].
    split; [exact Hl|].
    split; [exact (He channel_echo_echo 0%nat ltac:(lia))|].
    split; [exact (He channel_echo_echo 7%nat ltac:(lia)) | exact Hs].
Defined.

(** C10, witness: 61 reads of a constant full scale input. *)
Lemma read_oversampled_unclamped_61 :
  exists st',
    read_oversampled (mkWorld (fun _ _ => 1023) (fun _ => Some 0%nat))
                     1 0 61 reset_machine
    = Ok (1023, st')
    /\ started st' = 61%nat.
Proof.
  destruct (read_oversampled_unclamped
              (mkWorld (fun _ _ => 1023) (fun _ => Some 0%nat))
              1 0 61 reset_machine) as (st' & H & _ & _ & Hs & _).
  - lia.
  - intro n. exists 0%nat. split; [reflexivity | lia].
  - reflexivity.
  - exists st'. split; [exact H | exact Hs].
Defined.

(** ** Benches for the further properties *)

(** X1, witness: a read of channel argument 13 on a configured machine. *)
Lemma read_once_effect_bench :
  exists st',
    read_once (mock 2 [321]) 3 13 (mkMachine 133 64 0 Idle 0 []) = Ok (321, st')
    /\ ADC st' = 321
    /\ Z.land (ADCSRA st') 191 = 133
    /\ calls st' = [(13, 321)].
Proof.
  assert (E : exists st',
             read_once (mock 2 [321]) 3 13 (mkMachine 133 64 0 Idle 0 [])
             = Ok (321, st'))
    by (eexists; vm_compute; reflexivity).
  destruct E as (st' & E). exists st'. split; [exact E|].
  destruct (read_once_effect (mock 2 [321]) 3 13 321
              (mkMachine 133 64 0 Idle 0 []) st' E)
    as (_ & _ & HA & _ & (HS & _) & HC).
  split; [exact HA|]. split; [exact HS | exact HC].
Defined.

(** X2, witness: three samples of the mocked readings. *)
Lemma read_oversampled_any_return_bench :
  exists vs,
    List.length vs = 3%nat /\ 200 = sum16 vs / 3.
Proof.
  assert (E : exists st',
             read_oversampled (mock 2 [100; 200; 300]) 5 1 3 reset_machine
             = Ok (200, st'))
    by (eexists; vm_compute; reflexivity).
  destruct E as (st' & E).
  destruct (read_oversampled_any_return (mock 2 [100; 200; 300]) 5 1 3 200
              reset_machine st' ltac:(lia) E)
    as (vs & Hlen & _ & _ & Hr & _).
  exists vs. split; [exact Hlen | exact Hr].
Defined.


(** X5, witness: construct from reset, then read: still configured. *)
Lemma configured_kept_bench :
  configured (snd (adc_init (mock 2 [321]) [] reset_machine))
  /\ exists v st',
       read_once (mock 2 [321]) 3 5
                 (snd (adc_init (mock 2 [321]) [] reset_machine))
       = Ok (v, st')
       /\ configured st'.
Proof.
  destruct (configured_kept (mock 2 [321]) 3 reset_machine) as (Hinit & _).
  destruct (configured_kept (mock 2 [321]) 3
              (snd (adc_init (mock 2 [321]) [] reset_machine)))
    as (_ & Hread & _).
  split; [apply Hinit|].
  assert (E : exists v st',
             read_once (mock 2 [321]) 3 5
                       (snd (adc_init (mock 2 [321]) [] reset_machine))
             = Ok (v, st'))
    by (eexists; eexists; vm_compute; reflexivity).
  destruct E as (v & st' & E). exists v, st'. split; [exact E|].
  apply (Hread 5 v st' E). apply Hinit.
Defined.

(** X8, witness: a constant input of 512. *)
Lemma read_once_stable_bench :
  exists v st1 st2,
    read_once (mkWorld (fun _ _ => 512) (fun _ => Some 1%nat)) 2 4 reset_machine
    = Ok (v, st1)
    /\ read_once (mkWorld (fun _ _ => 512) (fun _ => Some 1%nat)) 2 4 st1
       = Ok (v, st2)
    /\ ADMUX st2 = ADMUX st1.
Proof.
  destruct (read_once_stable (mkWorld (fun _ _ => 512) (fun _ => Some 1%nat))
              2 4 reset_machine) as (v & st1 & st2 & R1 & R2 & _ & M & _).
  - intros n m mux. reflexivity.
  - intro n. exists 1%nat. split; [reflexivity | lia].
  - reflexivity.
  - exists v, st1, st2. split; [exact R1|]. split; [exact R2 | exact M].
Defined.

(** X9, witness: ten samples of a constant input of 512 average to 512. *)
Lemma read_oversampled_between_bench :
  exists r st',
    read_oversampled (mkWorld (fun _ _ => 512) (fun _ => Some 1%nat))
                     2 4 10 reset_machine = Ok (r, st')
    /\ 512 <= r <= 512.
Proof.
  apply (read_oversampled_between
           (mkWorld (fun _ _ => 512) (fun _ => Some 1%nat))
           2 4 10 512 512 reset_machine).
  - lia.
  - lia.
  - lia.
  - intros n mux. simpl. lia.
  - intro n. exists 1%nat. split; [reflexivity | lia].
  - reflexivity.
Defined.

(** X10, witness: the dead peripheral. *)
Lemma dead_hardware_blocks_bench :
  read_oversampled dead 1000 2 5 reset_machine = Blocked
  /\ print_adc dead right_to_left 1000 [] reset_machine = Blocked.
Proof.
  destruct (dead_hardware_blocks dead reset_machine eq_refl eq_refl 1000%nat)
    as (Hover & Hdump).
  split; [apply Hover; lia | apply Hdump; apply right_to_left_permutation].
Defined.
